(** * faas-cli [local-run]: the docker invocation builder and its command gate

    A shallow embedding of [commands/local_run.go].  Go values are modelled
    as follows:
    - [string] as [string], [int] as [Z], [[]string] as [list string];
    - [map[string]string] as [gmap string string]; a [range] over a map
      visits the entries in an order picked by the Go runtime, which is
      modelled by a random draw that selects one permutation of the entries;
    - a nilable pointer ([*FunctionResources]) as [option];
    - a Go function returning [(T, error)] as a state transformer over the
      [World] (working directory, directories, files, process environment,
      the runtime's random draws and a trace of the calls made) returning a
      [result T];
    - functions this file calls but does not define ([deriveFprocess],
      [readFiles], [stack.ParseYAMLFile], [updateGitignore], [filepath.Join],
      [strconv.Quote], [cmd.Start], [cmd.Wait]) are Section variables. *)

From stdpp Require Import base option list list_monad strings gmap fin_maps pretty.
From Stdlib Require Import ZArith Lia.

Open Scope Z_scope.
Open Scope string_scope.
Open Scope list_scope.

(** ** Errors *)

(** Go [error] values built by this file: plain messages ([fmt.Errorf]
    without [%w], or an error coming from a collaborator), wrapping errors
    ([fmt.Errorf] with [%w], which stores the rendered message and the wrapped
    error) and [*missingFileError]. *)
Inductive error : Type :=
  | errorString (msg : string)
  | wrapError (msg : string) (err : error)
  | missingFileError (missing : list string) (dir : string).

Inductive result (A : Type) : Type :=
  | Ok (a : A)
  | Err (e : error).
Arguments Ok {A} a.
Arguments Err {A} e.

Definition is_Ok {A} (r : result A) : bool :=
  match r with Ok _ => true | Err _ => false end.

(** ** Data model *)

(** [stack.FunctionResources] and the fields of [stack.Function] that
    [local_run.go] reads ([Language] and [FProcess] are what the entrypoint
    derivation looks at). *)
Record FunctionResources : Type := {
  Memory : string;
  CPU : string
}.

Record Function : Type := {
  Language : string;
  FProcess : string;
  Image : string;
  Environment : gmap string string;
  EnvironmentFile : list string;
  Secrets : list string;
  Limits : option FunctionResources;
  ReadOnlyRootFilesystem : bool
}.

(** The zero value of [stack.Function], what a Go map lookup of an absent
    key yields. *)
Definition Function_zero : Function :=
  {| Language := ""; FProcess := ""; Image := ""; Environment := ∅;
     EnvironmentFile := []; Secrets := []; Limits := None;
     ReadOnlyRootFilesystem := false |}.

Record Services : Type := {
  Functions : gmap string Function
}.

(** An [io.Writer] sink is identified by a name. *)
Definition Writer : Type := string.

Record runOptions : Type := {
  print : bool;
  port : Z;
  network : string;
  extraEnv : gmap string string;
  output : Writer;
  err : Writer
}.

(** [exec.Cmd]: [exec.CommandContext ctx name arg...] stores [name :: arg]
    in [Args]; [Stdout] and [Stderr] are set later.  The field [Path] holds
    what the program name is looked up to on the machine, which the
    command line does not determine: it is not part of the record, and the
    methods that read it ([String], [Start], [Wait]) are collaborators.
    The context [ctx] only travels to the process and is left out. *)
Record Cmd : Type := {
  Args : list string;
  Stdout : option Writer;
  Stderr : option Writer
}.

Definition exec_Command (name : string) (args : list string) : Cmd :=
  {| Args := name :: args; Stdout := None; Stderr := None |}.

(** ** The world *)

Inductive event : Type :=
  | EvParseYAMLFile (file name : string)
  | EvUpdateGitignore
  | EvAbs (path : string)
  | EvMkdirAll (path : string) (perm : Z)
  | EvStat (path : string)
  | EvWrite (sink : Writer) (text : string)
  | EvPrintf (text : string)
  | EvStart (c : Cmd)
  | EvWait (c : Cmd).

Record World : Type := {
  environ : gmap string string;   (* process environment *)
  cwd : option string;            (* [os.Getwd]; [None] when it fails *)
  dirs : gmap string Z;           (* directories, with permission bits *)
  files : gset string;            (* regular files *)
  writable : bool;                (* may directories be created? *)
  fastrand : list nat;            (* the runtime's upcoming random draws *)
  trace : list event              (* calls made so far, oldest first *)
}.

Definition log (e : event) (w : World) : World :=
  {| environ := environ w; cwd := cwd w; dirs := dirs w; files := files w;
     writable := writable w; fastrand := fastrand w;
     trace := trace w ++ [e] |}.

Definition set_dirs (d : gmap string Z) (w : World) : World :=
  {| environ := environ w; cwd := cwd w; dirs := d; files := files w;
     writable := writable w; fastrand := fastrand w; trace := trace w |}.

Definition set_fastrand (r : list nat) (w : World) : World :=
  {| environ := environ w; cwd := cwd w; dirs := dirs w; files := files w;
     writable := writable w; fastrand := r; trace := trace w |}.

(** State passing: a Go statement sequence is a function from the world to
    a value and the world after it. *)
Definition Go (A : Type) : Type := World → A * World.

Definition go_ret {A} (a : A) : Go A := λ w, (a, w).
Definition go_bind {A B} (m : Go A) (k : A → Go B) : Go B :=
  λ w, let '(a, w') := m w in k a w'.

Declare Scope go_scope.
Delimit Scope go_scope with go.
Notation "x <- m ;; k" := (go_bind m (λ x, k))
  (at level 100, m at next level, right associativity) : go_scope.
Notation "m ;;; k" := (go_bind m (λ _, k))
  (at level 100, right associativity) : go_scope.
Open Scope go_scope.

(** *** The operating system calls of the file *)

(** [os.LookupEnv]. *)
Definition os_LookupEnv (key : string) : Go (option string) :=
  λ w, (environ w !! key, w).

(** [os.Stat path]: [None] is a nil error; a path that is neither a file
    nor a directory gives an error. *)
Definition os_Stat (path : string) : Go (option error) :=
  λ w,
    let w' := log (EvStat path) w in
    if decide (path ∈ files w) then (None, w')
    else if decide (is_Some (dirs w !! path)) then (None, w')
    else (Some (errorString ("stat " +:+ path +:+ ": no such file or directory")), w').

(** [os.MkdirAll path perm]: nothing to do when [path] is a directory, an
    error when it is a regular file or cannot be created, otherwise the
    directory is created with [perm]. *)
Definition os_MkdirAll (path : string) (perm : Z) : Go (option error) :=
  λ w,
    let w' := log (EvMkdirAll path perm) w in
    if decide (is_Some (dirs w !! path)) then (None, w')
    else if decide (path ∈ files w) then
      (Some (errorString ("mkdir " +:+ path +:+ ": not a directory")), w')
    else if writable w then (None, set_dirs (<[path := perm]> (dirs w)) w')
    else (Some (errorString ("mkdir " +:+ path +:+ ": permission denied")), w').

(** *** Ranging over a map *)

(** The order in which [range] visits a map: the draw [r] selects one of the
    permutations of the entries. *)
Definition mapiter (r : nat) (m : gmap string string) : list (string * string) :=
  let l := map_to_list m in
  default l (permutations l !! r).

Definition range_map (m : gmap string string) : Go (list (string * string)) :=
  λ w,
    match fastrand w with
    | [] => (mapiter 0 m, w)
    | r :: rs => (mapiter r m, set_fastrand rs w)
    end.

Definition localSecretsDir : string := ".secrets".

(** A line feed, Go's ["\n"]. *)
Definition LF : string := String (Ascii.ascii_of_nat 10) EmptyString.

(** The [-e=NAME=VALUE] flag of one map entry. *)
Definition envFlag (kv : string * string) : string :=
  "-e=" +:+ kv.1 +:+ "=" +:+ kv.2.

Section LocalRun.

(** *** Collaborators defined outside [local_run.go] *)

(** [deriveFprocess], from the [commands] package. *)
Variable deriveFprocess : Function → result string.
(** [readFiles], from the [commands] package: the merged [key=value]
    pairs of the listed files. *)
Variable readFiles : list string → result (gmap string string).
(** [stack.ParseYAMLFile yamlFile regex filter envsubst]. *)
Variable ParseYAMLFile : string → string → string → bool → result Services.
(** The package variable [yamlFile]. *)
Variable yamlFile : string.
(** [updateGitignore]: its returned error, [None] for nil. *)
Variable updateGitignore : option error.
(** [filepath.Join] and [strconv.Quote] (the [%q] verb). *)
Variable filepath_Join : string → string → string.
Variable strconv_Quote : string → string.
(** [Start] and [Wait] of [exec.Cmd]: their returned errors. *)
Variable cmd_Start : Cmd → option error.
Variable cmd_Wait : Cmd → option error.
(** [String] of [exec.Cmd]: the text of the command, with the program as
    it was looked up. *)
Variable cmd_String : Cmd → string.

(** [filepath.Abs path] for a relative [path]: the working directory
    joined with it, an error when the working directory is unknown. *)
Definition filepath_Abs (path : string) : Go (result string) :=
  λ w,
    let w' := log (EvAbs path) w in
    match cwd w with
    | None => (Err (errorString "getwd: no such file or directory"), w')
    | Some wd => (Ok (filepath_Join wd path), w')
    end.

(** [func (m missingFileError) Error() string] and the messages of the
    other errors. *)
Definition Error (e : error) : string :=
  match e with
  | errorString msg => msg
  | wrapError msg _ => msg
  | missingFileError missing dir =>
      "create the following secrets (" +:+ String.concat ", " missing
        +:+ ") in: " +:+ strconv_Quote dir
  end.

(** The loop of [dirContainsFiles]: [missing] accumulates, in the order of
    [names], every name whose [os.Stat] fails. *)
Fixpoint dirContainsFiles_loop (dir : string) (names missing : list string)
  : Go (list string) :=
  match names with
  | [] => go_ret missing
  | name :: names' =>
      let path := filepath_Join dir name in
      statErr <- os_Stat path;;
      let missing :=
        match statErr with
        | Some _ => missing ++ [name]
        | None => missing
        end in
      dirContainsFiles_loop dir names' missing
  end.

Definition dirContainsFiles (dir : string) (names : list string)
  : Go (option error) :=
  missing <- dirContainsFiles_loop dir names [];;
  if decide (0 < length missing)%nat
  then go_ret (Some (missingFileError missing dir))
  else go_ret None.

(** [buildDockerRun] constructs an [exec.Cmd] from the given stack
    [Function].  [0700] is [448]. *)
Definition buildDockerRun (fnc : Function) (opts : runOptions)
  : Go (result Cmd) :=
  let args := ["run"; "--rm"; "-i"; "-p=" +:+ pretty (port opts) +:+ ":8080"] in
  let args :=
    if decide (network opts ≠ "")
    then args ++ ["--network=" +:+ network opts] else args in
  match deriveFprocess fnc with
  | Err e => go_ret (Err e)
  | Ok fprocess =>
    env <- range_map (Environment fnc);;
    let args := args ++ (envFlag <$> env) in
    match readFiles (EnvironmentFile fnc) with
    | Err e => go_ret (Err e)
    | Ok moreEnv =>
      more <- range_map moreEnv;;
      let args := args ++ (envFlag <$> more) in
      extra <- range_map (extraEnv opts);;
      let args := args ++ (envFlag <$> extra) in
      let args :=
        if ReadOnlyRootFilesystem fnc then args ++ ["--read-only"] else args in
      let args :=
        match Limits fnc with
        | Some limits =>
            let args :=
              if decide (Memory limits ≠ "")
              then args ++ ["--memory-reservation=" +:+ Memory limits]
              else args in
            if decide (CPU limits ≠ "")
            then args ++ ["--cpus=" +:+ CPU limits]
            else args
        | None => args
        end in
      withSecrets <-
        (if decide (0 < length (Secrets fnc))%nat then
           abs <- filepath_Abs localSecretsDir;;
           match abs with
           | Err e =>
               go_ret (Err (wrapError
                 ("can't determine secrets folder: " +:+ Error e) e))
           | Ok secretsPath =>
               mkErr <- os_MkdirAll secretsPath 448;;
               match mkErr with
               | Some e =>
                   go_ret (Err (wrapError
                     ("can't create local secrets folder "
                        +:+ strconv_Quote secretsPath +:+ ": " +:+ Error e) e))
               | None =>
                   dirErr <-
                     (if print opts then go_ret None
                      else dirContainsFiles secretsPath (Secrets fnc));;
                   match dirErr with
                   | Some e =>
                       go_ret (Err (wrapError ("missing files: " +:+ Error e) e))
                   | None =>
                       go_ret (Ok (args ++
                         ["--volume=" +:+ secretsPath +:+ ":/var/openfaas/secrets"]))
                   end
               end
           end
         else go_ret (Ok args));;
      match withSecrets with
      | Err e => go_ret (Err e)
      | Ok args =>
          let args := args ++ ["-e=fprocess=" +:+ fprocess] in
          let args := args ++ [Image fnc] in
          go_ret (Ok (exec_Command "docker" args))
      end
    end
  end.

Definition go_log (e : event) : Go unit := λ w, (tt, log e w).

Definition runFunction (name : string) (opts : runOptions) : Go (option error) :=
  go_log (EvParseYAMLFile yamlFile name);;;
  match ParseYAMLFile yamlFile "" name true with
  | Err e => go_ret (Some e)
  | Ok services =>
    if decide (1 < size (Functions services))%nat then
      go_ret (Some (errorString
        ("multiple functions matching " +:+ strconv_Quote name
           +:+ " in the stack file")))
    else
      go_log EvUpdateGitignore;;;
      match updateGitignore with
      | Some e => go_ret (Some e)
      | None =>
        let fnc := default Function_zero (Functions services !! name) in
        built <- buildDockerRun fnc opts;;
        match built with
        | Err e => go_ret (Some e)
        | Ok cmd =>
          if print opts then
            go_log (EvWrite (output opts) (cmd_String cmd +:+ LF));;;
            go_ret None
          else
            let cmd :=
              {| Args := Args cmd;
                 Stdout := Some (output opts); Stderr := Some (err opts) |} in
            go_log (EvPrintf
              ("Starting local-run for: " +:+ name +:+ " on: http://0.0.0.0:"
                 +:+ pretty (port opts) +:+ LF +:+ LF));;;
            go_log (EvStart cmd);;;
            match cmd_Start cmd with
            | Some e => go_ret (Some e)
            | None => go_log (EvWait cmd);;; go_ret (cmd_Wait cmd)
            end
        end
      end
  end.

(** The [PreRunE] hook of the command. *)
Definition PreRunE (args : list string) : Go (option error) :=
  v <- os_LookupEnv "OPENFAAS_EXPERIMENTAL";;
  match v with
  | None =>
      go_ret (Some (errorString
        "this command is experimental, set OPENFAAS_EXPERIMENTAL=1 to use it"))
  | Some v =>
      if decide (v = "0") then
        go_ret (Some (errorString
          "this command is experimental, set OPENFAAS_EXPERIMENTAL=1 to use it"))
      else if decide (length args < 1)%nat then
        go_ret (Some (errorString "expected the name of the function"))
      else if decide (1 < length args)%nat then
        go_ret (Some (errorString "only one function name is allowed"))
      else go_ret None
  end.

(** The [RunE] hook: the sinks are the command's standard streams and the
    function name is [args[0]], whose absence would be a run-time panic. *)
Definition RunE (opts : runOptions) (args : list string) : Go (option error) :=
  let opts :=
    {| print := print opts; port := port opts; network := network opts;
       extraEnv := extraEnv opts; output := "stdout"; err := "stderr" |} in
  match args with
  | name :: _ => runFunction name opts
  | [] => go_ret (Some (errorString "panic: index out of range [0] with length 0"))
  end.

(** How cobra executes the command: [RunE] runs only when [PreRunE]
    returned a nil error. *)
Definition execute (opts : runOptions) (args : list string) : Go (option error) :=
  pre <- PreRunE args;;
  match pre with
  | Some e => go_ret (Some e)
  | None => RunE opts args
  end.

End LocalRun.

(** ** Sample collaborators and inputs

    Concrete stand-ins for the collaborators, used to run the model on
    explicit inputs. *)
Module Sample.

(** An explicit [fprocess] is used as it is; a function without one has
    no template to take it from. *)
Definition deriveFprocess (fnc : Function) : result string :=
  if decide (FProcess fnc = "")
  then Err (errorString "template.yml: no such file or directory")
  else Ok (FProcess fnc).

(** No environment file exists, so only the empty list can be read. *)
Definition readFiles (paths : list string) : result (gmap string string) :=
  match paths with
  | [] => Ok ∅
  | p :: _ => Err (errorString ("open " +:+ p +:+ ": no such file or directory"))
  end.

Definition filepath_Join (dir name : string) : string := dir +:+ "/" +:+ name.

(** Quoting of a string without special characters. *)
Definition strconv_Quote (s : string) : string :=
  String (Ascii.ascii_of_nat 34) s +:+ String (Ascii.ascii_of_nat 34) EmptyString.

Definition build : Function → runOptions → Go (result Cmd) :=
  buildDockerRun deriveFprocess readFiles filepath_Join strconv_Quote.

Definition world (rs : list nat) : World :=
  {| environ := ∅; cwd := Some "/home/dev/fn"; dirs := ∅; files := ∅;
     writable := true; fastrand := rs; trace := [] |}.

Definition stronghash : Function :=
  {| Language := "go"; FProcess := "./handler"; Image := "stronghash:latest";
     Environment := {[ "A" := "1"; "B" := "2" ]};
     EnvironmentFile := []; Secrets := []; Limits := None;
     ReadOnlyRootFilesystem := false |}.

Definition withSecrets (names : list string) : Function :=
  {| Language := "go"; FProcess := "./handler"; Image := "stronghash:latest";
     Environment := ∅; EnvironmentFile := []; Secrets := names;
     Limits := Some {| Memory := "40Mi"; CPU := "" |};
     ReadOnlyRootFilesystem := true |}.

Definition options (p : bool) (net : string) (extra : gmap string string)
  : runOptions :=
  {| print := p; port := 8081; network := net; extraEnv := extra;
     output := "stdout"; err := "stderr" |}.

(** A world where the process environment, the directories and the files
    are given. *)
Definition worldWith (env : gmap string string) (ds : gmap string Z)
    (fs : gset string) : World :=
  {| environ := env; cwd := Some "/home/dev/fn"; dirs := ds; files := fs;
     writable := true; fastrand := []; trace := [] |}.

Definition secretsDir : string := "/home/dev/fn/.secrets".

(** A function with limits and with the key [fprocess] in its
    environment. *)
Definition limited : Function :=
  {| Language := "go"; FProcess := "./handler"; Image := "stronghash:latest";
     Environment := {[ "fprocess" := "env" ]};
     EnvironmentFile := []; Secrets := [];
     Limits := Some {| Memory := "40Mi"; CPU := "0.5" |};
     ReadOnlyRootFilesystem := false |}.

(** The stack file holds the one function [stronghash]. *)
Definition ParseYAMLFile (file regex filter : string) (envsubst : bool)
  : result Services :=
  if decide (filter = "stronghash")
  then Ok {| Functions := {[ "stronghash" := stronghash ]} |}
  else Err (errorString ("no functions matching --filter/--regex were found in the YAML file")).

(** Starting and waiting for the container succeed. *)
Definition cmd_Start (c : Cmd) : option error := None.
Definition cmd_Wait (c : Cmd) : option error := None.

(** The program [docker] is found at [/usr/bin/docker]; the text of a
    command is that path and the arguments, separated by spaces. *)
Definition cmd_String (c : Cmd) : string :=
  String.concat " " ("/usr/bin/docker" :: tail (Args c)).

Definition run : runOptions → list string → Go (option error) :=
  execute deriveFprocess readFiles ParseYAMLFile "stack.yml" None
    filepath_Join strconv_Quote cmd_Start cmd_Wait cmd_String.

End Sample.


(** ** Views of the emitted command line

    Names for the pieces of the argument list, used to state what
    [buildDockerRun] emits. *)

Definition portFlag (opts : runOptions) : string :=
  "-p=" +:+ pretty (port opts) +:+ ":8080".

Definition networkFlags (opts : runOptions) : list string :=
  if decide (network opts ≠ "") then ["--network=" +:+ network opts] else [].

Definition readOnlyFlags (fnc : Function) : list string :=
  if ReadOnlyRootFilesystem fnc then ["--read-only"] else [].

Definition memoryFlags (fnc : Function) : list string :=
  match Limits fnc with
  | Some limits =>
      if decide (Memory limits ≠ "")
      then ["--memory-reservation=" +:+ Memory limits] else []
  | None => []
  end.

Definition cpuFlags (fnc : Function) : list string :=
  match Limits fnc with
  | Some limits =>
      if decide (CPU limits ≠ "") then ["--cpus=" +:+ CPU limits] else []
  | None => []
  end.

Definition volumeFlag (secretsPath : string) : string :=
  "--volume=" +:+ secretsPath +:+ ":/var/openfaas/secrets".

Definition fprocessFlag (fprocess : string) : string :=
  "-e=fprocess=" +:+ fprocess.

(** The flags of a command: its arguments without the program name and
    without the final positional argument (the image). *)
Definition flags (c : Cmd) : list string := removelast (tail (Args c)).

(** The emitted command line: everything after the program name. *)
Definition cmdline (c : Cmd) : list string := tail (Args c).

Definition is_portFlag (s : string) : bool := String.prefix "-p=" s.
Definition is_networkFlag (s : string) : bool := String.prefix "--network=" s.
Definition is_volumeFlag (s : string) : bool := String.prefix "--volume=" s.
Definition is_memoryFlag (s : string) : bool := String.prefix "--memory-reservation=" s.
Definition is_cpuFlag (s : string) : bool := String.prefix "--cpus=" s.

(** The world with further calls appended to its trace. *)
Definition logs (es : list event) (w : World) : World :=
  {| environ := environ w; cwd := cwd w; dirs := dirs w; files := files w;
     writable := writable w; fastrand := fastrand w;
     trace := trace w ++ es |}.

(** The [i]-th upcoming draw of the runtime. *)
Definition draw (i : nat) (w : World) : nat := default 0%nat (fastrand w !! i).

(** A path at which [os.Stat] fails. *)
Definition absent (w : World) (path : string) : Prop :=
  (path ∉ files w) ∧ (dirs w !! path = None).

Global Instance absent_dec w path : Decision (absent w path).
Proof. unfold absent. apply _. Defined.

Definition is_EvStat (e : event) : bool :=
  match e with EvStat _ => true | _ => false end.

(** [os.MkdirAll dir] succeeds: [dir] is a directory already, or nothing is
    in its place and it can be created. *)
Definition mkdirOk (w : World) (dir : string) : Prop :=
  is_Some (dirs w !! dir) ∨ ((dir ∉ files w) ∧ writable w = true).

Global Instance mkdirOk_dec w dir : Decision (mkdirOk w dir).
Proof. unfold mkdirOk. apply _. Defined.

(** The error of a failing [os.MkdirAll dir]. *)
Definition mkdirError (w : World) (dir : string) : error :=
  if decide (dir ∈ files w)
  then errorString ("mkdir " +:+ dir +:+ ": not a directory")
  else errorString ("mkdir " +:+ dir +:+ ": permission denied").

(** The world once [dir] exists: unchanged when it is a directory already,
    otherwise with [dir] created with [perm]. *)
Definition withDir (dir : string) (perm : Z) (w : World) : World :=
  if decide (is_Some (dirs w !! dir)) then w
  else set_dirs (<[dir := perm]> (dirs w)) w.

(** Two worlds with the same file system (their traces and the runtime's
    draws may differ). *)
Definition sameFS (w1 w2 : World) : Prop :=
  cwd w1 = cwd w2 ∧ dirs w1 = dirs w2 ∧ files w1 = files w2
  ∧ writable w1 = writable w2.

Section Views.

Variable deriveFprocess : Function → result string.
Variable readFiles : list string → result (gmap string string).
Variable filepath_Join : string → string → string.
Variable strconv_Quote : string → string.

(** The declared names whose file is absent from [dir]. *)
Definition missingNames (w : World) (dir : string) (names : list string)
  : list string :=
  filter (λ name, absent w (filepath_Join dir name)) names.

(** The [os.Stat] calls of one run of [dirContainsFiles]. *)
Definition statEvents (dir : string) (names : list string) : list event :=
  (λ name, EvStat (filepath_Join dir name)) <$> names.

(** The error [buildDockerRun] returns for missing secret files. *)
Definition missingFilesError (missing : list string) (dir : string) : error :=
  wrapError
    ("missing files: " +:+ Error strconv_Quote (missingFileError missing dir))
    (missingFileError missing dir).

(** The argument list of [buildDockerRun] when it reaches the secrets
    block, with the map orders given by the first three draws. *)
Definition argsBeforeSecrets (fnc : Function) (opts : runOptions)
    (moreEnv : gmap string string) (w : World) : list string :=
  ["run"; "--rm"; "-i"; portFlag opts] ++ networkFlags opts
    ++ (envFlag <$> mapiter (draw 0 w) (Environment fnc))
    ++ (envFlag <$> mapiter (draw 1 w) moreEnv)
    ++ (envFlag <$> mapiter (draw 2 w) (extraEnv opts))
    ++ readOnlyFlags fnc ++ memoryFlags fnc ++ cpuFlags fnc.

(** The secrets block of [buildDockerRun], as a function of the argument
    list built so far. *)
Definition secretsBlock (fnc : Function) (opts : runOptions)
    (args : list string) : Go (result (list string)) :=
  if decide (0 < length (Secrets fnc))%nat then
    abs <- filepath_Abs filepath_Join localSecretsDir;;
    match abs with
    | Err e =>
        go_ret (Err (wrapError
          ("can't determine secrets folder: " +:+ Error strconv_Quote e) e))
    | Ok secretsPath =>
        mkErr <- os_MkdirAll secretsPath 448;;
        match mkErr with
        | Some e =>
            go_ret (Err (wrapError
              ("can't create local secrets folder "
                 +:+ strconv_Quote secretsPath +:+ ": "
                 +:+ Error strconv_Quote e) e))
        | None =>
            dirErr <-
              (if print opts then go_ret None
               else dirContainsFiles filepath_Join secretsPath (Secrets fnc));;
            match dirErr with
            | Some e =>
                go_ret (Err (wrapError
                  ("missing files: " +:+ Error strconv_Quote e) e))
            | None => go_ret (Ok (args ++ [volumeFlag secretsPath]))
            end
        end
    end
  else go_ret (Ok args).

(** The end of [buildDockerRun]: the fprocess flag, the image and the
    command. *)
Definition finish (fnc : Function) (fprocess : string)
    (r : result (list string)) : result Cmd :=
  match r with
  | Err e => Err e
  | Ok args =>
      Ok (exec_Command "docker" ((args ++ [fprocessFlag fprocess]) ++ [Image fnc]))
  end.

(** What the secrets block contributes, as a function of the file
    system: the volume flag (none for a function without secrets), or the
    error that ends the build. *)
Definition secretsOutcome (fnc : Function) (opts : runOptions) (w : World)
  : result (list string) :=
  if decide (Secrets fnc = []) then Ok []
  else
    match cwd w with
    | None =>
        Err (wrapError
          ("can't determine secrets folder: "
             +:+ "getwd: no such file or directory")
          (errorString "getwd: no such file or directory"))
    | Some wd =>
        let dir := filepath_Join wd localSecretsDir in
        if decide (mkdirOk w dir) then
          if print opts then Ok [volumeFlag dir]
          else
            match missingNames (withDir dir 448 w) dir (Secrets fnc) with
            | [] => Ok [volumeFlag dir]
            | m => Err (missingFilesError m dir)
            end
        else
          Err (wrapError
            ("can't create local secrets folder " +:+ strconv_Quote dir
               +:+ ": " +:+ Error strconv_Quote (mkdirError w dir))
            (mkdirError w dir))
    end.

End Views.

(** ** Further views

    Kinds of calls in a trace, and the remaining method of the file. *)

(** A call on the secrets directory: path resolution, directory creation or
    file check. *)
Definition is_secretsAccess (e : event) : bool :=
  match e with
  | EvAbs _ | EvMkdirAll _ _ | EvStat _ => true
  | _ => false
  end.

(** Starting the container process, or waiting for it. *)
Definition is_processEvent (e : event) : bool :=
  match e with
  | EvStart _ | EvWait _ => true
  | _ => false
  end.

(** Writing to a sink or to the standard output. *)
Definition is_outputEvent (e : event) : bool :=
  match e with
  | EvWrite _ _ | EvPrintf _ => true
  | _ => false
  end.

(** The command line whose three environment layers list the entries in
    the orders [env], [more] and [extra]. *)
Definition layeredLine (fnc : Function) (opts : runOptions)
    (env more extra : list (string * string)) (vol : list string)
    (fprocess : string) : list string :=
  ["run"; "--rm"; "-i"; portFlag opts] ++ networkFlags opts
    ++ (envFlag <$> env) ++ (envFlag <$> more) ++ (envFlag <$> extra)
    ++ readOnlyFlags fnc ++ memoryFlags fnc ++ cpuFlags fnc ++ vol
    ++ [fprocessFlag fprocess; Image fnc].

(** The calls made between two worlds. *)
Definition newEvents (w w' : World) : list event :=
  drop (length (trace w)) (trace w').

(** [func (m *missingFileError) AddMissingSecret(p string)]: the receiver
    with [p] appended to its list. *)
Definition AddMissingSecret (m : error) (p : string) : error :=
  match m with
  | missingFileError missing dir => missingFileError (missing ++ [p]) dir
  | _ => m
  end.

(** [cmd.Stdout = stdout; cmd.Stderr = stderr]. *)
Definition wired (c : Cmd) (stdout stderr : Writer) : Cmd :=
  {| Args := Args c; Stdout := Some stdout; Stderr := Some stderr |}.

(** The notice [runFunction] prints before it starts the process. *)
Definition startNotice (name : string) (opts : runOptions) : string :=
  "Starting local-run for: " +:+ name +:+ " on: http://0.0.0.0:"
    +:+ pretty (port opts) +:+ LF +:+ LF.

(** The error of a disabled command. *)
Definition experimentalError : error :=
  errorString "this command is experimental, set OPENFAAS_EXPERIMENTAL=1 to use it".

Section EffectViews.

Variable deriveFprocess : Function → result string.
Variable readFiles : list string → result (gmap string string).
Variable filepath_Join : string → string → string.

(** Does [buildDockerRun] reach a successful [os.MkdirAll]?  It does for a
    function with secrets whose entrypoint and environment files are
    available, when the working directory is known and the secrets
    directory exists or can be created. *)
Definition reachesMkdir (fnc : Function) (w : World) : bool :=
  is_Ok (deriveFprocess fnc) && is_Ok (readFiles (EnvironmentFile fnc))
  && bool_decide (Secrets fnc ≠ [])
  && match cwd w with
     | Some wd => bool_decide (mkdirOk w (filepath_Join wd localSecretsDir))
     | None => false
     end.

(** The file system after a run of [buildDockerRun]. *)
Definition fsAfter (fnc : Function) (w : World) : World :=
  match cwd w with
  | Some wd =>
      if reachesMkdir fnc w
      then withDir (filepath_Join wd localSecretsDir) 448 w
      else w
  | None => w
  end.

End EffectViews.

(** ** Basic facts about the world and about ranging over maps *)

Lemma log_logs e w : log e w = logs [e] w.
Proof. reflexivity. Qed.

Lemma logs_logs es es' w : logs es' (logs es w) = logs (es ++ es') w.
Proof. unfold logs; simpl. by rewrite app_assoc. Qed.

Lemma logs_nil w : logs [] w = w.
Proof. destruct w; unfold logs; simpl. by rewrite app_nil_r. Qed.

Lemma mapiter_Permutation r m : mapiter r m ≡ₚ map_to_list m.
Proof.
  unfold mapiter.
  destruct (permutations (map_to_list m) !! r) as [l|] eqn:Hl; simpl; [|done].
  symmetry. apply permutations_Permutation.
  by apply list_elem_of_lookup_2 in Hl.
Qed.

(** Every order of the entries is the order of some draw. *)
Lemma mapiter_complete m l : l ≡ₚ map_to_list m → ∃ r, mapiter r m = l.
Proof.
  intros Hl. symmetry in Hl. apply permutations_Permutation in Hl.
  apply list_elem_of_lookup_1 in Hl as [r Hr].
  exists r. unfold mapiter. by rewrite Hr.
Qed.

Lemma mapiter_lookup r m k v :
  (k, v) ∈ mapiter r m ↔ m !! k = Some v.
Proof. rewrite mapiter_Permutation. apply elem_of_map_to_list. Qed.

(** A map with at most one entry is ranged over in one order only. *)
Lemma mapiter_single r m : (size m ≤ 1)%nat → mapiter r m = map_to_list m.
Proof.
  intros Hsize. pose proof (mapiter_Permutation r m) as Hperm.
  rewrite <- length_map_to_list in Hsize.
  destruct (map_to_list m) as [|kv [|kv' l]] eqn:Hl.
  - by apply Permutation_nil_r in Hperm.
  - by apply Permutation_singleton_r in Hperm.
  - simpl in Hsize. lia.
Qed.

Lemma layeredLine_mapiter fnc opts moreEnv vol fprocess w :
  argsBeforeSecrets fnc opts moreEnv w ++ vol
    ++ [fprocessFlag fprocess; Image fnc]
  = layeredLine fnc opts (mapiter (draw 0 w) (Environment fnc))
      (mapiter (draw 1 w) moreEnv) (mapiter (draw 2 w) (extraEnv opts))
      vol fprocess.
Proof.
  unfold argsBeforeSecrets, layeredLine. by rewrite <- !app_assoc.
Qed.

Lemma range_map_eq m w :
  range_map m w = (mapiter (draw 0 w) m, set_fastrand (tail (fastrand w)) w).
Proof.
  unfold range_map, draw. destruct w as [? ? ? ? ? [|r rs] ?]; reflexivity.
Qed.

Lemma fastrand_set l w : fastrand (set_fastrand l w) = l.
Proof. reflexivity. Qed.

Lemma set_fastrand_set l l' w :
  set_fastrand l (set_fastrand l' w) = set_fastrand l w.
Proof. reflexivity. Qed.

Lemma draw_set_tail i l w :
  draw i (set_fastrand (tail l) w) = draw (S i) (set_fastrand l w).
Proof. unfold draw; simpl. destruct l; reflexivity. Qed.

Lemma draw_set_id i w : draw i (set_fastrand (fastrand w) w) = draw i w.
Proof. reflexivity. Qed.

Lemma tail3_drop {A} (l : list A) : tail (tail (tail l)) = drop 3 l.
Proof. destruct l as [|? [|? [|? ?]]]; reflexivity. Qed.

Lemma withDir_log dir perm e w :
  withDir dir perm (log e w) = log e (withDir dir perm w).
Proof. unfold withDir; simpl. case_decide; reflexivity. Qed.

Lemma withDir_set_fastrand dir perm l w :
  withDir dir perm (set_fastrand l w) = set_fastrand l (withDir dir perm w).
Proof. unfold withDir; simpl. case_decide; reflexivity. Qed.

Lemma trace_withDir dir perm w : trace (withDir dir perm w) = trace w.
Proof. unfold withDir. case_decide; reflexivity. Qed.

Lemma dirs_withDir_new dir perm w :
  dirs w !! dir = None → dirs (withDir dir perm w) !! dir = Some perm.
Proof.
  intros Hn. unfold withDir. rewrite decide_False.
  - simpl. apply lookup_insert_eq.
  - rewrite Hn. by intros [? ?].
Qed.

Lemma withDir_sameFS dir perm w1 w2 :
  sameFS w1 w2 → sameFS (withDir dir perm w1) (withDir dir perm w2).
Proof.
  intros (Hc & Hd & Hf & Hw). unfold withDir. rewrite Hd.
  case_decide; unfold sameFS; simpl; rewrite ?Hd; auto.
Qed.

Lemma cmdline_exec_Command name args : cmdline (exec_Command name args) = args.
Proof. reflexivity. Qed.

Lemma flags_exec_Command name args x y :
  flags (exec_Command name (args ++ [x; y])) = args ++ [x].
Proof.
  unfold flags, exec_Command; simpl.
  change [x; y] with ([x] ++ [y]). rewrite app_assoc.
  apply removelast_last.
Qed.

(** *** Telling the kinds of flags apart by their prefix *)

Lemma prefix_append (p x : string) : String.prefix p (p +:+ x) = true.
Proof.
  induction p as [|a p IH]; simpl.
  - destruct x; reflexivity.
  - destruct (Ascii.ascii_dec a a); [exact IH | congruence].
Qed.

Lemma envFlags_Forall (P : string → bool) (l : list (string * string)) :
  (∀ k v, P ("-e=" +:+ k +:+ "=" +:+ v) = false) →
  Forall (λ s, P s = false) (envFlag <$> l).
Proof.
  intros HP. apply Forall_fmap, Forall_forall. intros [k v] _. apply HP.
Qed.

Ltac flag_pieces :=
  unfold networkFlags, readOnlyFlags, memoryFlags, cpuFlags, portFlag,
    volumeFlag, fprocessFlag;
  repeat case_match; repeat constructor.

Ltac no_such_flag :=
  repeat (apply Forall_app; split);
  try (apply envFlags_Forall; reflexivity);
  flag_pieces.

(** ** The builder, step by step *)

Section Builder.

Variable deriveFprocess : Function → result string.
Variable readFiles : list string → result (gmap string string).
Variable filepath_Join : string → string → string.
Variable strconv_Quote : string → string.

Local Abbreviation build :=
  (buildDockerRun deriveFprocess readFiles filepath_Join strconv_Quote).
Local Abbreviation secrets := (secretsBlock filepath_Join strconv_Quote).
Local Abbreviation missing := (missingNames filepath_Join).
Local Abbreviation stats := (statEvents filepath_Join).

(** [buildDockerRun] up to the secrets block. *)
Lemma buildDockerRun_eq fnc opts w :
  build fnc opts w =
    match deriveFprocess fnc with
    | Err e => (Err e, w)
    | Ok fprocess =>
        match readFiles (EnvironmentFile fnc) with
        | Err e => (Err e, set_fastrand (tail (fastrand w)) w)
        | Ok moreEnv =>
            let '(r, w') :=
              secrets fnc opts (argsBeforeSecrets fnc opts moreEnv w)
                (set_fastrand (drop 3 (fastrand w)) w) in
            (finish fnc fprocess r, w')
        end
    end.
Proof.
  unfold buildDockerRun.
  destruct (deriveFprocess fnc) as [fprocess|e]; [|reflexivity].
  unfold go_bind at 1. rewrite range_map_eq.
  destruct (readFiles (EnvironmentFile fnc)) as [moreEnv|e]; [|reflexivity].
  unfold go_bind at 1. rewrite range_map_eq.
  unfold go_bind at 1. rewrite range_map_eq.
  rewrite !fastrand_set, !set_fastrand_set, !draw_set_tail, !draw_set_id,
    tail3_drop.
  assert (Hargs :
    (let args := ["run"; "--rm"; "-i"; "-p=" +:+ pretty (port opts) +:+ ":8080"] in
     let args := if decide (network opts ≠ "")
                 then args ++ ["--network=" +:+ network opts] else args in
     let args := args ++ (envFlag <$> mapiter (draw 0 w) (Environment fnc)) in
     let args := args ++ (envFlag <$> mapiter (draw 1 w) moreEnv) in
     let args := args ++ (envFlag <$> mapiter (draw 2 w) (extraEnv opts)) in
     let args := if ReadOnlyRootFilesystem fnc
                 then args ++ ["--read-only"] else args in
     match Limits fnc with
     | Some limits =>
         let args := if decide (Memory limits ≠ "")
                     then args ++ ["--memory-reservation=" +:+ Memory limits]
                     else args in
         if decide (CPU limits ≠ "")
         then args ++ ["--cpus=" +:+ CPU limits] else args
     | None => args
     end) = argsBeforeSecrets fnc opts moreEnv w).
  { unfold argsBeforeSecrets, networkFlags, readOnlyFlags, memoryFlags,
      cpuFlags, portFlag; cbv zeta.
    destruct (decide (network opts ≠ "")), (ReadOnlyRootFilesystem fnc),
      (Limits fnc) as [[mem cpu]|]; cbn [Memory CPU];
      repeat case_decide; rewrite <- ?app_assoc, ?app_nil_r; reflexivity. }
  cbv zeta in Hargs. rewrite Hargs. clear Hargs.
  generalize (argsBeforeSecrets fnc opts moreEnv w); intros args.
  generalize (set_fastrand (drop 3 (fastrand w)) w); intros w3.
  unfold go_bind at 1. unfold secretsBlock, volumeFlag.
  match goal with
  | |- (let '(_, _) := ?x in _) = _ => destruct x as [[args'|e] w']
  end; reflexivity.
Qed.

Lemma os_MkdirAll_eq dir perm w :
  os_MkdirAll dir perm w =
    if decide (mkdirOk w dir)
    then (None, log (EvMkdirAll dir perm) (withDir dir perm w))
    else (Some (mkdirError w dir), log (EvMkdirAll dir perm) w).
Proof.
  unfold os_MkdirAll, withDir, mkdirError.
  destruct (decide (mkdirOk w dir)) as [Hok|Hno]; unfold mkdirOk in *.
  - destruct (decide (is_Some (dirs w !! dir))) as [Hd|Hd]; [reflexivity|].
    destruct Hok as [?|[Hf Hw]]; [done|].
    rewrite decide_False by done. rewrite Hw. reflexivity.
  - rewrite decide_False by tauto.
    destruct (decide (dir ∈ files w)) as [Hf|Hf]; [reflexivity|].
    destruct (writable w) eqn:Hw; [|reflexivity].
    exfalso. apply Hno. right. done.
Qed.

Lemma os_Stat_eq path w :
  os_Stat path w =
    (if decide (absent w path)
     then Some (errorString ("stat " +:+ path +:+ ": no such file or directory"))
     else None,
     log (EvStat path) w).
Proof.
  unfold os_Stat, absent.
  destruct (decide (path ∈ files w)) as [Hf|Hf].
  { rewrite decide_False by tauto. reflexivity. }
  destruct (decide (is_Some (dirs w !! path))) as [Hd|Hd].
  { rewrite decide_False; [reflexivity|].
    intros [_ Hn]. rewrite Hn in Hd. by destruct Hd. }
  rewrite decide_True; [reflexivity|].
  split; [done|]. by apply eq_None_not_Some.
Qed.

Lemma dirContainsFiles_loop_eq dir names acc w :
  dirContainsFiles_loop filepath_Join dir names acc w =
    (acc ++ missing w dir names, logs (stats dir names) w).
Proof.
  revert acc w. induction names as [|name names IH]; intros acc w.
  - simpl. unfold go_ret, missingNames, statEvents. simpl.
    by rewrite app_nil_r, logs_nil.
  - cbn [dirContainsFiles_loop]. unfold go_bind. rewrite os_Stat_eq.
    rewrite IH. rewrite log_logs, logs_logs.
    unfold missingNames, statEvents. cbn [fmap list_fmap].
    rewrite filter_cons. simpl.
    change (absent (logs [EvStat (filepath_Join dir name)] w))
      with (absent w).
    destruct (decide (absent w (filepath_Join dir name))); simpl;
      [by rewrite <- app_assoc | done].
Qed.

Lemma dirContainsFiles_eq dir names w :
  dirContainsFiles filepath_Join dir names w =
    (match missing w dir names with
     | [] => None
     | m => Some (missingFileError m dir)
     end,
     logs (stats dir names) w).
Proof.
  unfold dirContainsFiles, go_bind. rewrite dirContainsFiles_loop_eq.
  rewrite app_nil_l. destruct (missing w dir names) as [|name m].
  - reflexivity.
  - rewrite decide_True by (simpl; lia). reflexivity.
Qed.

Lemma secretsBlock_nil fnc opts args w :
  Secrets fnc = [] → secrets fnc opts args w = (Ok args, w).
Proof. intros H. unfold secretsBlock. rewrite H. reflexivity. Qed.

Lemma secretsBlock_eq fnc opts args w :
  Secrets fnc ≠ [] →
  secrets fnc opts args w =
    let w1 := log (EvAbs localSecretsDir) w in
    match cwd w with
    | None =>
        (Err (wrapError
           ("can't determine secrets folder: "
              +:+ "getwd: no such file or directory")
           (errorString "getwd: no such file or directory")), w1)
    | Some wd =>
        let dir := filepath_Join wd localSecretsDir in
        if decide (mkdirOk w dir) then
          let w2 := log (EvMkdirAll dir 448) (withDir dir 448 w1) in
          if print opts then (Ok (args ++ [volumeFlag dir]), w2)
          else
            match missing w2 dir (Secrets fnc) with
            | [] =>
                (Ok (args ++ [volumeFlag dir]),
                 logs (stats dir (Secrets fnc)) w2)
            | m =>
                (Err (missingFilesError strconv_Quote m dir),
                 logs (stats dir (Secrets fnc)) w2)
            end
        else
          (Err (wrapError
             ("can't create local secrets folder " +:+ strconv_Quote dir
                +:+ ": " +:+ Error strconv_Quote (mkdirError w dir))
             (mkdirError w dir)),
           log (EvMkdirAll dir 448) w1)
    end.
Proof.
  intros Hne. unfold secretsBlock.
  rewrite decide_True by (destruct (Secrets fnc); [done | simpl; lia]).
  unfold go_bind at 1. unfold filepath_Abs.
  destruct (cwd w) as [wd|] eqn:Hcwd; [|reflexivity].
  cbv zeta. unfold go_bind at 1. rewrite os_MkdirAll_eq.
  change (mkdirOk (log (EvAbs localSecretsDir) w)) with (mkdirOk w).
  change (mkdirError (log (EvAbs localSecretsDir) w)) with (mkdirError w).
  destruct (decide (mkdirOk w (filepath_Join wd localSecretsDir)));
    [|reflexivity].
  unfold go_bind at 1.
  destruct (print opts); [reflexivity|].
  rewrite dirContainsFiles_eq.
  destruct (missing _ _ _); reflexivity.
Qed.

(** The world [buildDockerRun] leaves behind when a function with
    secrets is built successfully. *)
Lemma buildDockerRun_Ok fnc opts w cmd w' :
  build fnc opts w = (Ok cmd, w') →
  ∃ fprocess moreEnv vol,
    deriveFprocess fnc = Ok fprocess
    ∧ readFiles (EnvironmentFile fnc) = Ok moreEnv
    ∧ cmd = exec_Command "docker"
              (argsBeforeSecrets fnc opts moreEnv w ++ vol
                 ++ [fprocessFlag fprocess; Image fnc])
    ∧ ((Secrets fnc = [] ∧ vol = []
        ∧ w' = set_fastrand (drop 3 (fastrand w)) w)
       ∨ (Secrets fnc ≠ []
          ∧ ∃ wd,
              let dir := filepath_Join wd localSecretsDir in
              cwd w = Some wd ∧ mkdirOk w dir ∧ vol = [volumeFlag dir]
              ∧ (print opts = false →
                 missing (withDir dir 448 w) dir (Secrets fnc) = [])
              ∧ w' = logs
                       ([EvAbs localSecretsDir; EvMkdirAll dir 448]
                          ++ (if print opts then []
                              else stats dir (Secrets fnc)))
                       (set_fastrand (drop 3 (fastrand w))
                          (withDir dir 448 w)))).
Proof.
  rewrite buildDockerRun_eq.
  destruct (deriveFprocess fnc) as [fprocess|e]; [|discriminate].
  destruct (readFiles (EnvironmentFile fnc)) as [moreEnv|e]; [|discriminate].
  set (args := argsBeforeSecrets fnc opts moreEnv w).
  set (w3 := set_fastrand (drop 3 (fastrand w)) w).
  destruct (decide (Secrets fnc = [])) as [Hs|Hs].
  - rewrite secretsBlock_nil by done. simpl. intros [= <- <-].
    exists fprocess, moreEnv, []. repeat split.
    + rewrite <- !app_assoc. reflexivity.
    + left. done.
  - rewrite secretsBlock_eq by done. cbv zeta.
    change (cwd w3) with (cwd w). change (mkdirOk w3) with (mkdirOk w).
    destruct (cwd w) as [wd|] eqn:Hcwd; [|discriminate].
    destruct (decide (mkdirOk w (filepath_Join wd localSecretsDir)))
      as [Hmk|Hmk]; [|discriminate].
    rewrite withDir_log. unfold w3. rewrite withDir_set_fastrand.
    rewrite !log_logs, !logs_logs.
    destruct (print opts) eqn:Hp.
    + simpl. intros [= <- <-].
      exists fprocess, moreEnv, [volumeFlag (filepath_Join wd localSecretsDir)].
      repeat split.
      * rewrite <- !app_assoc. reflexivity.
      * right. split; [done|]. exists wd. cbv zeta.
        repeat split; try done.
    + change (missing (logs ?es (set_fastrand ?l ?v))) with (missing v).
      destruct (missing _ _ _) as [|m ms] eqn:Hm; [|discriminate].
      simpl. intros [= <- <-].
      exists fprocess, moreEnv, [volumeFlag (filepath_Join wd localSecretsDir)].
      repeat split.
      * rewrite <- !app_assoc. reflexivity.
      * right. split; [done|]. exists wd. cbv zeta.
        repeat split; try done.
Qed.

Lemma argsBeforeSecrets_no_networkFlag fnc opts moreEnv w :
  network opts = "" →
  Forall (λ s, is_networkFlag s = false) (argsBeforeSecrets fnc opts moreEnv w).
Proof.
  intros Hn. unfold argsBeforeSecrets.
  assert (networkFlags opts = []) as ->.
  { unfold networkFlags. rewrite Hn. reflexivity. }
  no_such_flag.
Qed.

Lemma argsBeforeSecrets_no_volumeFlag fnc opts moreEnv w :
  Forall (λ s, is_volumeFlag s = false) (argsBeforeSecrets fnc opts moreEnv w).
Proof. unfold argsBeforeSecrets. no_such_flag. Qed.

Lemma missingNames_sameFS w1 w2 dir names :
  sameFS w1 w2 → missing w1 dir names = missing w2 dir names.
Proof.
  intros (_ & Hd & Hf & _). unfold missingNames.
  apply list_filter_iff. intros name. unfold absent. by rewrite Hd, Hf.
Qed.

Lemma elem_of_missingNames w dir names name :
  name ∈ missing w dir names
  ↔ name ∈ names ∧ absent w (filepath_Join dir name).
Proof. unfold missingNames. rewrite list_elem_of_filter. tauto. Qed.

(** [buildDockerRun] for a function with secrets, once the entrypoint,
    the environment files, the working directory and the secrets
    directory are available. *)
Lemma buildDockerRun_secrets fnc opts w fprocess moreEnv wd :
  let dir := filepath_Join wd localSecretsDir in
  let w2 := logs [EvAbs localSecretsDir; EvMkdirAll dir 448]
              (set_fastrand (drop 3 (fastrand w)) (withDir dir 448 w)) in
  let cmd := exec_Command "docker"
               (argsBeforeSecrets fnc opts moreEnv w
                  ++ [volumeFlag dir; fprocessFlag fprocess; Image fnc]) in
  deriveFprocess fnc = Ok fprocess →
  readFiles (EnvironmentFile fnc) = Ok moreEnv →
  Secrets fnc ≠ [] →
  cwd w = Some wd →
  mkdirOk w dir →
  build fnc opts w =
    if print opts then (Ok cmd, w2)
    else
      match missing (withDir dir 448 w) dir (Secrets fnc) with
      | [] => (Ok cmd, logs (stats dir (Secrets fnc)) w2)
      | m => (Err (missingFilesError strconv_Quote m dir),
              logs (stats dir (Secrets fnc)) w2)
      end.
Proof.
  intros dir w2 cmd Hd Hr Hs Hcwd Hmk.
  rewrite buildDockerRun_eq, Hd, Hr, secretsBlock_eq by done. cbv zeta.
  change (cwd (set_fastrand ?l w)) with (cwd w). rewrite Hcwd.
  change (mkdirOk (set_fastrand ?l w)) with (mkdirOk w).
  fold dir. rewrite decide_True by done.
  rewrite withDir_log, withDir_set_fastrand, !log_logs, !logs_logs.
  change ([EvAbs localSecretsDir] ++ [EvMkdirAll dir 448])
    with [EvAbs localSecretsDir; EvMkdirAll dir 448].
  fold w2.
  assert (Hcmd : finish fnc fprocess
            (Ok (argsBeforeSecrets fnc opts moreEnv w ++ [volumeFlag dir]))
          = Ok cmd).
  { unfold finish, cmd. rewrite <- !app_assoc. reflexivity. }
  destruct (print opts); [cbn iota; by rewrite Hcmd|].
  change (missing w2) with (missing (withDir dir 448 w)).
  destruct (missing (withDir dir 448 w) dir (Secrets fnc));
    unfold w2; rewrite logs_logs; [cbn iota; by rewrite Hcmd|].
  reflexivity.
Qed.

(** *** Missing secret files *)

(** C2: for a function with secrets built with [print = false], when some
    declared secret has no file in the secrets directory the builder
    returns an error and no invocation; once the entrypoint, the
    environment files and the secrets directory are available, that error
    is the single "missing files" error, it lists exactly the declared
    names that have no file, and its message shows those names and the
    resolved secrets directory. *)
Theorem missing_secrets_single_error fnc opts w wd :
  let dir := filepath_Join wd localSecretsDir in
  let fs := withDir dir 448 w in
  let M := missing fs dir (Secrets fnc) in
  Secrets fnc ≠ [] →
  print opts = false →
  cwd w = Some wd →
  (∃ name, name ∈ Secrets fnc ∧ absent fs (filepath_Join dir name)) →
  (∃ e w', build fnc opts w = (Err e, w'))
  ∧ (is_Ok (deriveFprocess fnc) = true →
     is_Ok (readFiles (EnvironmentFile fnc)) = true →
     mkdirOk w dir →
     (∃ w', build fnc opts w
              = (Err (missingFilesError strconv_Quote M dir), w'))
     ∧ (∀ name, name ∈ M
                ↔ name ∈ Secrets fnc ∧ absent fs (filepath_Join dir name))
     ∧ Error strconv_Quote (missingFilesError strconv_Quote M dir)
       = "missing files: create the following secrets ("
           +:+ String.concat ", " M +:+ ") in: " +:+ strconv_Quote dir).
Proof.
  intros dir fs M Hs Hp Hcwd (name & Hin & Habs).
  assert (HM : M ≠ []).
  { intros HM. assert (name ∈ M) as Hn by by apply elem_of_missingNames.
    rewrite HM in Hn. by apply not_elem_of_nil in Hn. }
  assert (Hgood : ∀ fprocess moreEnv,
    deriveFprocess fnc = Ok fprocess →
    readFiles (EnvironmentFile fnc) = Ok moreEnv →
    mkdirOk w dir →
    ∃ w', build fnc opts w
          = (Err (missingFilesError strconv_Quote M dir), w')).
  { intros fprocess moreEnv Hd Hr Hmk.
    rewrite (buildDockerRun_secrets fnc opts w fprocess moreEnv wd)
      by done.
    rewrite Hp. fold dir fs M. destruct M; [done|]. by eexists. }
  split.
  - destruct (deriveFprocess fnc) as [fprocess|e] eqn:Hd.
    2:{ rewrite buildDockerRun_eq, Hd. by eexists _, _. }
    destruct (readFiles (EnvironmentFile fnc)) as [moreEnv|e] eqn:Hr.
    2:{ rewrite buildDockerRun_eq, Hd, Hr. by eexists _, _. }
    destruct (decide (mkdirOk w dir)) as [Hmk|Hmk].
    + destruct (Hgood _ _ eq_refl eq_refl Hmk) as [w' Hw'].
      by eexists _, _.
    + rewrite buildDockerRun_eq, Hd, Hr, secretsBlock_eq by done. cbv zeta.
      change (cwd (set_fastrand ?l w)) with (cwd w). rewrite Hcwd.
      change (mkdirOk (set_fastrand ?l w)) with (mkdirOk w).
      fold dir. rewrite decide_False by done. by eexists _, _.
  - intros Hd Hr Hmk.
    destruct (deriveFprocess fnc) as [fprocess|] eqn:Hd'; [|done].
    destruct (readFiles (EnvironmentFile fnc)) as [moreEnv|] eqn:Hr'; [|done].
    split; [by eapply Hgood|]. split.
    + intros n. apply elem_of_missingNames.
    + reflexivity.
Qed.

Lemma secretsBlock_fst fnc opts args w :
  (secrets fnc opts args w).1 =
    match secretsOutcome filepath_Join strconv_Quote fnc opts w with
    | Ok vol => Ok (args ++ vol)
    | Err e => Err e
    end.
Proof.
  unfold secretsOutcome.
  destruct (decide (Secrets fnc = [])) as [Hs|Hs].
  { rewrite secretsBlock_nil by done. simpl. by rewrite app_nil_r. }
  rewrite secretsBlock_eq by done. cbv zeta.
  destruct (cwd w) as [wd|]; [|reflexivity].
  destruct (decide (mkdirOk w _)); [|reflexivity].
  destruct (print opts); [reflexivity|].
  rewrite withDir_log.
  change (missing (log ?e (log ?e' ?v))) with (missing v).
  destruct (missing _ _ _); reflexivity.
Qed.

Lemma secretsOutcome_sameFS fnc opts w1 w2 :
  sameFS w1 w2 →
  secretsOutcome filepath_Join strconv_Quote fnc opts w1
  = secretsOutcome filepath_Join strconv_Quote fnc opts w2.
Proof.
  intros HFS. pose proof HFS as (Hc & Hd & Hf & Hw).
  unfold secretsOutcome. rewrite Hc.
  destruct (decide (Secrets fnc = [])); [done|].
  destruct (cwd w2) as [wd|]; [|done].
  assert (Hmk : mkdirOk w1 (filepath_Join wd localSecretsDir)
                ↔ mkdirOk w2 (filepath_Join wd localSecretsDir)).
  { unfold mkdirOk. by rewrite Hd, Hf, Hw. }
  assert (Herr : mkdirError w1 (filepath_Join wd localSecretsDir)
                 = mkdirError w2 (filepath_Join wd localSecretsDir)).
  { unfold mkdirError. by rewrite Hf. }
  rewrite (missingNames_sameFS _ (withDir (filepath_Join wd localSecretsDir) 448 w2))
    by by apply withDir_sameFS.
  destruct (decide (mkdirOk w1 _)), (decide (mkdirOk w2 _));
    try tauto; try done. by rewrite Herr.
Qed.

(** The value [buildDockerRun] returns. *)
Lemma buildDockerRun_result fnc opts w :
  (build fnc opts w).1 =
    match deriveFprocess fnc with
    | Err e => Err e
    | Ok fprocess =>
        match readFiles (EnvironmentFile fnc) with
        | Err e => Err e
        | Ok moreEnv =>
            match secretsOutcome filepath_Join strconv_Quote fnc opts w with
            | Err e => Err e
            | Ok vol =>
                Ok (exec_Command "docker"
                      (argsBeforeSecrets fnc opts moreEnv w ++ vol
                         ++ [fprocessFlag fprocess; Image fnc]))
            end
        end
    end.
Proof.
  rewrite buildDockerRun_eq.
  destruct (deriveFprocess fnc) as [fprocess|e]; [|reflexivity].
  destruct (readFiles (EnvironmentFile fnc)) as [moreEnv|e]; [|reflexivity].
  pose proof (secretsBlock_fst fnc opts (argsBeforeSecrets fnc opts moreEnv w)
                (set_fastrand (drop 3 (fastrand w)) w)) as Hfst.
  rewrite (secretsOutcome_sameFS fnc opts _ w) in Hfst by done.
  destruct (secrets _ _ _ _) as [r w']. cbn [fst] in *. subst r.
  destruct (secretsOutcome _ _ _ _ _) as [vol|e]; [|reflexivity].
  unfold finish. rewrite <- !app_assoc. reflexivity.
Qed.

(** *** Network and port *)

(** C1 (as the code has it): a successful build always emits the
    port-publish flag binding the configured host port to 8080, whatever
    the network option is; it emits the network-attach flag
    [--network=NETWORK] when [network] is non-empty, and no network flag
    when [network] is empty. *)
Theorem network_flag_added_port_flag_kept fnc opts w cmd w' :
  build fnc opts w = (Ok cmd, w') →
  portFlag opts ∈ flags cmd
  ∧ (network opts ≠ "" → "--network=" +:+ network opts ∈ flags cmd)
  ∧ (network opts = "" → Forall (λ s, is_networkFlag s = false) (flags cmd)).
Proof.
  intros Hb. apply buildDockerRun_Ok in Hb
    as (fprocess & moreEnv & vol & _ & _ & -> & Hvol).
  rewrite app_assoc, flags_exec_Command.
  split; [|split].
  - rewrite !elem_of_app. do 2 left. unfold argsBeforeSecrets.
    apply elem_of_app. left. repeat constructor.
  - intros Hn. rewrite !elem_of_app. do 2 left.
    unfold argsBeforeSecrets, networkFlags.
    rewrite decide_True by done.
    rewrite !elem_of_app. right. left. constructor.
  - intros Hn. rewrite !Forall_app. split; [split|].
    + by apply argsBeforeSecrets_no_networkFlag.
    + destruct Hvol as [(_ & -> & _)|(_ & wd & _ & _ & -> & _)];
        repeat constructor.
    + repeat constructor.
Qed.

(** *** Final positional arguments *)

(** C3: when the build succeeds, the command line ends with the derived
    fprocess flag followed by the image; every flag made from
    [runOptions.extraEnv], also one with key [fprocess], stands before
    them. *)
Theorem fprocess_flag_then_image_last fnc opts w cmd w' :
  build fnc opts w = (Ok cmd, w') →
  ∃ fprocess before extra after,
    deriveFprocess fnc = Ok fprocess
    ∧ extra ≡ₚ map_to_list (extraEnv opts)
    ∧ cmdline cmd
      = before ++ (envFlag <$> extra) ++ after
          ++ [fprocessFlag fprocess; Image fnc]
    ∧ (∀ k v, extraEnv opts !! k = Some v →
              envFlag (k, v) ∈ envFlag <$> extra).
Proof.
  intros Hb. apply buildDockerRun_Ok in Hb
    as (fprocess & moreEnv & vol & Hd & _ & -> & _).
  exists fprocess,
    (["run"; "--rm"; "-i"; portFlag opts] ++ networkFlags opts
       ++ (envFlag <$> mapiter (draw 0 w) (Environment fnc))
       ++ (envFlag <$> mapiter (draw 1 w) moreEnv)),
    (mapiter (draw 2 w) (extraEnv opts)),
    (readOnlyFlags fnc ++ memoryFlags fnc ++ cpuFlags fnc ++ vol).
  split; [done|]. split; [apply mapiter_Permutation|]. split.
  - rewrite cmdline_exec_Command. unfold argsBeforeSecrets.
    rewrite <- !app_assoc. reflexivity.
  - intros k v Hkv. apply list_elem_of_fmap_2. by apply mapiter_lookup.
Qed.

(** *** Environment layers *)

(** C4: when the build succeeds, the command line is the base flags, then
    one flag per entry of [functionDef.Environment], then one per entry
    read from the [EnvironmentFile] files, then one per entry of
    [runOptions.extraEnv], then the remaining flags.  Nothing is
    deduplicated: a key present in both [functionDef.Environment] and
    [extraEnv] has a flag in the first layer and another one, further
    right, in the third. *)
Theorem environment_flags_in_three_layers fnc opts w cmd w' :
  build fnc opts w = (Ok cmd, w') →
  ∃ moreEnv env more extra vol fprocess,
    let base := ["run"; "--rm"; "-i"; portFlag opts] ++ networkFlags opts in
    readFiles (EnvironmentFile fnc) = Ok moreEnv
    ∧ env ≡ₚ map_to_list (Environment fnc)
    ∧ more ≡ₚ map_to_list moreEnv
    ∧ extra ≡ₚ map_to_list (extraEnv opts)
    ∧ cmdline cmd
      = base ++ (envFlag <$> env) ++ (envFlag <$> more)
          ++ (envFlag <$> extra)
          ++ readOnlyFlags fnc ++ memoryFlags fnc ++ cpuFlags fnc ++ vol
          ++ [fprocessFlag fprocess; Image fnc]
    ∧ (∀ k v1 v2,
         Environment fnc !! k = Some v1 →
         extraEnv opts !! k = Some v2 →
         ∃ i j,
           (i < length env)%nat
           ∧ cmdline cmd !! (length base + i)%nat = Some (envFlag (k, v1))
           ∧ cmdline cmd
               !! (length base + length env + length more + j)%nat
             = Some (envFlag (k, v2))).
Proof.
  intros Hb. apply buildDockerRun_Ok in Hb
    as (fprocess & moreEnv & vol & _ & Hr & -> & _).
  exists moreEnv, (mapiter (draw 0 w) (Environment fnc)),
    (mapiter (draw 1 w) moreEnv), (mapiter (draw 2 w) (extraEnv opts)),
    vol, fprocess.
  intros base. split; [done|].
  do 3 (split; [apply mapiter_Permutation|]).
  assert (Hline : cmdline (exec_Command "docker"
            (argsBeforeSecrets fnc opts moreEnv w ++ vol
               ++ [fprocessFlag fprocess; Image fnc]))
          = base ++ (envFlag <$> mapiter (draw 0 w) (Environment fnc))
              ++ (envFlag <$> mapiter (draw 1 w) moreEnv)
              ++ (envFlag <$> mapiter (draw 2 w) (extraEnv opts))
              ++ readOnlyFlags fnc ++ memoryFlags fnc ++ cpuFlags fnc ++ vol
              ++ [fprocessFlag fprocess; Image fnc]).
  { rewrite cmdline_exec_Command. unfold argsBeforeSecrets, base.
    rewrite <- !app_assoc. reflexivity. }
  split; [exact Hline|].
  intros k v1 v2 H1 H2. rewrite Hline.
  apply (mapiter_lookup (draw 0 w)), list_elem_of_lookup_1 in H1 as [i Hi].
  apply (mapiter_lookup (draw 2 w)), list_elem_of_lookup_1 in H2 as [j Hj].
  exists i, j. split; [by eapply lookup_lt_Some|]. split.
  - rewrite lookup_app_r by lia.
    replace (length base + i - length base)%nat with i by lia.
    rewrite lookup_app_l by (rewrite length_fmap; by eapply lookup_lt_Some).
    by rewrite list_lookup_fmap, Hi.
  - rewrite lookup_app_r by lia.
    rewrite lookup_app_r by (rewrite length_fmap; lia).
    rewrite lookup_app_r by (rewrite !length_fmap; lia).
    rewrite !length_fmap.
    replace (length base + length (mapiter (draw 0 w) (Environment fnc))
             + length (mapiter (draw 1 w) moreEnv) + j - length base
             - length (mapiter (draw 0 w) (Environment fnc))
             - length (mapiter (draw 1 w) moreEnv))%nat with j by lia.
    rewrite lookup_app_l by (rewrite length_fmap; by eapply lookup_lt_Some).
    by rewrite list_lookup_fmap, Hj.
Qed.

(** *** Repeated calls *)

(** C5 (as the code has it): two calls with the same function definition
    and options on the same file system end alike, with the same error or
    with two command lines that carry the same flags in the same places,
    except that inside each of the three environment layers each call
    lists the entries of that layer's map in the order in which the runtime
    ranged over the map in that call.  When the orders are the same in
    both calls, and in particular when no map has more than one entry, the
    two commands are equal. *)
Theorem command_line_fixed_up_to_map_order fnc opts w1 w2 :
  sameFS w1 w2 →
  match (build fnc opts w1).1, (build fnc opts w2).1 with
  | Ok cmd1, Ok cmd2 =>
      ∃ fprocess moreEnv vol env1 env2 more1 more2 extra1 extra2,
        deriveFprocess fnc = Ok fprocess
        ∧ readFiles (EnvironmentFile fnc) = Ok moreEnv
        ∧ secretsOutcome filepath_Join strconv_Quote fnc opts w1 = Ok vol
        ∧ env1 ≡ₚ map_to_list (Environment fnc)
        ∧ env2 ≡ₚ map_to_list (Environment fnc)
        ∧ more1 ≡ₚ map_to_list moreEnv
        ∧ more2 ≡ₚ map_to_list moreEnv
        ∧ extra1 ≡ₚ map_to_list (extraEnv opts)
        ∧ extra2 ≡ₚ map_to_list (extraEnv opts)
        ∧ cmdline cmd1 = layeredLine fnc opts env1 more1 extra1 vol fprocess
        ∧ cmdline cmd2 = layeredLine fnc opts env2 more2 extra2 vol fprocess
        ∧ (env1 = env2 → more1 = more2 → extra1 = extra2 → cmd1 = cmd2)
        ∧ ((size (Environment fnc) ≤ 1)%nat → (size moreEnv ≤ 1)%nat →
           (size (extraEnv opts) ≤ 1)%nat → cmd1 = cmd2)
  | Err e1, Err e2 => e1 = e2
  | _, _ => False
  end.
Proof.
  intros HFS. rewrite !buildDockerRun_result.
  rewrite <- (secretsOutcome_sameFS fnc opts w1 w2 HFS).
  destruct (deriveFprocess fnc) as [fprocess|e]; [|reflexivity].
  destruct (readFiles (EnvironmentFile fnc)) as [moreEnv|e]; [|reflexivity].
  destruct (secretsOutcome _ _ _ _ _) as [vol|e]; [|reflexivity].
  rewrite !layeredLine_mapiter.
  exists fprocess, moreEnv, vol,
    (mapiter (draw 0 w1) (Environment fnc)),
    (mapiter (draw 0 w2) (Environment fnc)),
    (mapiter (draw 1 w1) moreEnv), (mapiter (draw 1 w2) moreEnv),
    (mapiter (draw 2 w1) (extraEnv opts)),
    (mapiter (draw 2 w2) (extraEnv opts)).
  do 3 (split; [reflexivity|]).
  do 6 (split; [apply mapiter_Permutation|]).
  do 2 (split; [apply cmdline_exec_Command|]).
  split.
  - intros -> -> ->. reflexivity.
  - intros He Hm Hx. by rewrite !mapiter_single.
Qed.

(** *** Secrets *)

(** C6: for a function with secrets built with [print = true], once the
    entrypoint and the environment files are available and the secrets
    directory is resolved and exists or is created, the build succeeds
    and emits the volume flag binding the secrets directory to
    [/var/openfaas/secrets]; its only file-system calls are the path
    resolution and the directory creation, no secret file is looked up,
    whether the files exist or not. *)
Theorem print_mode_skips_secret_check fnc opts w wd :
  let dir := filepath_Join wd localSecretsDir in
  Secrets fnc ≠ [] →
  print opts = true →
  is_Ok (deriveFprocess fnc) = true →
  is_Ok (readFiles (EnvironmentFile fnc)) = true →
  cwd w = Some wd →
  mkdirOk w dir →
  ∃ cmd w',
    build fnc opts w = (Ok cmd, w')
    ∧ "--volume=" +:+ dir +:+ ":/var/openfaas/secrets" ∈ flags cmd
    ∧ trace w' = trace w ++ [EvAbs localSecretsDir; EvMkdirAll dir 448]
    ∧ Forall (λ e, is_EvStat e = false) (drop (length (trace w)) (trace w')).
Proof.
  intros dir Hs Hp Hd Hr Hcwd Hmk.
  destruct (deriveFprocess fnc) as [fprocess|] eqn:Hd'; [|done].
  destruct (readFiles (EnvironmentFile fnc)) as [moreEnv|] eqn:Hr'; [|done].
  rewrite (buildDockerRun_secrets fnc opts w fprocess moreEnv wd) by done.
  rewrite Hp. eexists _, _. split; [reflexivity|].
  split; [|split].
  - change [volumeFlag (filepath_Join wd localSecretsDir);
            fprocessFlag fprocess; Image fnc]
      with ([volumeFlag (filepath_Join wd localSecretsDir)]
              ++ [fprocessFlag fprocess; Image fnc]).
    rewrite app_assoc, flags_exec_Command, !elem_of_app.
    left. right. constructor.
  - simpl. by rewrite trace_withDir.
  - simpl. rewrite trace_withDir, drop_app_length. repeat constructor.
Qed.

(** C7: for a function without secrets the builder makes no call on the
    secrets directory (no path resolution, no directory creation, no file
    check): the trace and the file system are left as they were, whether
    the build succeeds or fails; and a command that is built carries no
    volume flag. *)
Theorem no_secrets_no_directory_access fnc opts w r w' :
  Secrets fnc = [] →
  build fnc opts w = (r, w') →
  trace w' = trace w
  ∧ dirs w' = dirs w ∧ files w' = files w
  ∧ (∀ cmd, r = Ok cmd → Forall (λ s, is_volumeFlag s = false) (flags cmd)).
Proof.
  intros Hs Hb.
  assert (Htr : trace w' = trace w ∧ dirs w' = dirs w ∧ files w' = files w).
  { rewrite buildDockerRun_eq in Hb.
    destruct (deriveFprocess fnc) as [fprocess|e].
    2:{ by injection Hb as <- <-. }
    destruct (readFiles (EnvironmentFile fnc)) as [moreEnv|e].
    2:{ by injection Hb as <- <-. }
    rewrite secretsBlock_nil in Hb by done. by injection Hb as <- <-. }
  destruct Htr as (Htr & Hdirs & Hfiles).
  split; [done|]. split; [done|]. split; [done|].
  intros cmd ->. apply buildDockerRun_Ok in Hb
    as (fprocess & moreEnv & vol & _ & _ & -> & Hvol).
  destruct Hvol as [(_ & -> & _)|(Hne & _)]; [|done].
  rewrite app_nil_l, flags_exec_Command, Forall_app. split.
  - apply argsBeforeSecrets_no_volumeFlag.
  - repeat constructor.
Qed.

(** *** Resource limits *)

Lemma memoryFlags_not_nil fnc :
  memoryFlags fnc ≠ [] →
  ∃ limits, Limits fnc = Some limits ∧ Memory limits ≠ "".
Proof.
  unfold memoryFlags. destruct (Limits fnc) as [limits|]; [|done].
  case_decide; [|done]. intros _. by exists limits.
Qed.

Lemma cpuFlags_not_nil fnc :
  cpuFlags fnc ≠ [] →
  ∃ limits, Limits fnc = Some limits ∧ CPU limits ≠ "".
Proof.
  unfold cpuFlags. destruct (Limits fnc) as [limits|]; [|done].
  case_decide; [|done]. intros _. by exists limits.
Qed.

Lemma no_memoryFlag fnc opts moreEnv w vol fprocess :
  memoryFlags fnc = [] →
  (vol = [] ∨ ∃ dir, vol = [volumeFlag dir]) →
  Forall (λ s, is_memoryFlag s = false)
    ((argsBeforeSecrets fnc opts moreEnv w ++ vol) ++ [fprocessFlag fprocess]).
Proof.
  intros Hm Hvol. unfold argsBeforeSecrets. rewrite Hm.
  destruct Hvol as [->|[dir ->]]; no_such_flag.
Qed.

Lemma no_cpuFlag fnc opts moreEnv w vol fprocess :
  cpuFlags fnc = [] →
  (vol = [] ∨ ∃ dir, vol = [volumeFlag dir]) →
  Forall (λ s, is_cpuFlag s = false)
    ((argsBeforeSecrets fnc opts moreEnv w ++ vol) ++ [fprocessFlag fprocess]).
Proof.
  intros Hm Hvol. unfold argsBeforeSecrets. rewrite Hm.
  destruct Hvol as [->|[dir ->]]; no_such_flag.
Qed.

(** C8: a command that is built carries a memory-reservation flag exactly
    when [Limits] is present with a non-empty [Memory], and a CPU flag
    exactly when [Limits] is present with a non-empty [CPU]; and when the
    build fails, its error is the one of the entrypoint derivation, of the
    environment files or of the secrets block, never one about limits. *)
Theorem limit_flags_iff_limits_set fnc opts w :
  (∀ cmd w', build fnc opts w = (Ok cmd, w') →
     ((∃ s, s ∈ flags cmd ∧ is_memoryFlag s = true)
      ↔ ∃ limits, Limits fnc = Some limits ∧ Memory limits ≠ "")
     ∧ ((∃ s, s ∈ flags cmd ∧ is_cpuFlag s = true)
        ↔ ∃ limits, Limits fnc = Some limits ∧ CPU limits ≠ "")
     ∧ (∀ limits, Limits fnc = Some limits → Memory limits ≠ "" →
          "--memory-reservation=" +:+ Memory limits ∈ flags cmd)
     ∧ (∀ limits, Limits fnc = Some limits → CPU limits ≠ "" →
          "--cpus=" +:+ CPU limits ∈ flags cmd))
  ∧ (∀ e w', build fnc opts w = (Err e, w') →
       deriveFprocess fnc = Err e
       ∨ readFiles (EnvironmentFile fnc) = Err e
       ∨ secretsOutcome filepath_Join strconv_Quote fnc opts w = Err e).
Proof.
  split.
  - intros cmd w' Hb. apply buildDockerRun_Ok in Hb
      as (fprocess & moreEnv & vol & _ & _ & -> & Hvol).
    assert (Hvol' : vol = [] ∨ ∃ dir, vol = [volumeFlag dir]).
    { destruct Hvol as [(_ & -> & _)|(_ & wd & _ & _ & -> & _)]; eauto. }
    rewrite app_assoc, flags_exec_Command.
    assert (Hmem : ∀ limits, Limits fnc = Some limits → Memory limits ≠ "" →
              "--memory-reservation=" +:+ Memory limits
              ∈ (argsBeforeSecrets fnc opts moreEnv w ++ vol)
                  ++ [fprocessFlag fprocess]).
    { intros limits Hl Hm. unfold argsBeforeSecrets, memoryFlags.
      rewrite Hl, decide_True by done. rewrite !elem_of_app.
      do 2 left. do 6 right. left. constructor. }
    assert (Hcpu : ∀ limits, Limits fnc = Some limits → CPU limits ≠ "" →
              "--cpus=" +:+ CPU limits
              ∈ (argsBeforeSecrets fnc opts moreEnv w ++ vol)
                  ++ [fprocessFlag fprocess]).
    { intros limits Hl Hm. unfold argsBeforeSecrets, cpuFlags.
      rewrite Hl, decide_True by done. rewrite !elem_of_app.
      do 2 left. do 7 right. constructor. }
    split; [|split; [|split; [exact Hmem | exact Hcpu]]].
    + split.
      * intros (s & Hin & Hs).
        destruct (decide (memoryFlags fnc = [])) as [Hnil|Hnil].
        -- pose proof (no_memoryFlag fnc opts moreEnv w vol fprocess Hnil Hvol')
             as Hall.
           rewrite Forall_forall in Hall. rewrite (Hall s Hin) in Hs. done.
        -- by apply memoryFlags_not_nil.
      * intros (limits & Hl & Hm). eexists.
        split; [by apply Hmem | apply prefix_append].
    + split.
      * intros (s & Hin & Hs).
        destruct (decide (cpuFlags fnc = [])) as [Hnil|Hnil].
        -- pose proof (no_cpuFlag fnc opts moreEnv w vol fprocess Hnil Hvol')
             as Hall.
           rewrite Forall_forall in Hall. rewrite (Hall s Hin) in Hs. done.
        -- by apply cpuFlags_not_nil.
      * intros (limits & Hl & Hm). eexists.
        split; [by apply Hcpu | apply prefix_append].
  - intros e w' Hb.
    assert (Hr : (build fnc opts w).1 = Err e) by by rewrite Hb.
    rewrite buildDockerRun_result in Hr.
    destruct (deriveFprocess fnc) as [fprocess|];
      [|left; by injection Hr as ->].
    destruct (readFiles (EnvironmentFile fnc)) as [moreEnv|];
      [|right; left; by injection Hr as ->].
    destruct (secretsOutcome _ _ _ _ _) as [vol|];
      [discriminate | right; right; by injection Hr as ->].
Qed.

(** C10: for a function with secrets, once the entrypoint and the
    environment files are available and the secrets directory is resolved,
    a missing secrets directory is created with mode [0700] (owner only)
    whatever [print] is, so a dry run changes the file system; with
    [print = true] the build then succeeds without looking up any secret
    file, with [print = false] every declared secret is looked up. *)
Theorem secrets_directory_created_in_print_mode fnc opts w wd r w' :
  let dir := filepath_Join wd localSecretsDir in
  Secrets fnc ≠ [] →
  is_Ok (deriveFprocess fnc) = true →
  is_Ok (readFiles (EnvironmentFile fnc)) = true →
  cwd w = Some wd →
  dirs w !! dir = None →
  dir ∉ files w →
  writable w = true →
  build fnc opts w = (r, w') →
  dirs w' !! dir = Some 448
  ∧ EvMkdirAll dir 448 ∈ trace w'
  ∧ (print opts = true →
     is_Ok r = true
     ∧ trace w' = trace w ++ [EvAbs localSecretsDir; EvMkdirAll dir 448])
  ∧ (print opts = false →
     trace w' = trace w ++ [EvAbs localSecretsDir; EvMkdirAll dir 448]
                  ++ stats dir (Secrets fnc)).
Proof.
  intros dir Hs Hd Hr Hcwd Hnone Hnf Hw Hb.
  destruct (deriveFprocess fnc) as [fprocess|] eqn:Hd'; [|done].
  destruct (readFiles (EnvironmentFile fnc)) as [moreEnv|] eqn:Hr'; [|done].
  assert (Hmk : mkdirOk w dir) by (right; done).
  rewrite (buildDockerRun_secrets fnc opts w fprocess moreEnv wd) in Hb
    by done.
  fold dir in Hb.
  assert (Hdir : dirs (withDir dir 448 w) !! dir = Some 448)
    by by apply dirs_withDir_new.
  destruct (print opts) eqn:Hp.
  - injection Hb as <- <-. simpl. rewrite trace_withDir.
    split; [done|]. split; [|split; [done|done]].
    rewrite elem_of_app. right. repeat constructor.
  - assert (Hw' : w' = logs (stats dir (Secrets fnc))
              (logs [EvAbs localSecretsDir; EvMkdirAll dir 448]
                 (set_fastrand (drop 3 (fastrand w)) (withDir dir 448 w)))).
    { destruct (missing _ _ _); by injection Hb as <- <-. }
    subst w'. simpl. rewrite trace_withDir.
    split; [done|]. split; [|split; [done|]].
    + rewrite !elem_of_app. left. right. repeat constructor.
    + intros _. by rewrite <- app_assoc.
Qed.

End Builder.

(** ** The command gate *)

Section Command.

Variable deriveFprocess : Function → result string.
Variable readFiles : list string → result (gmap string string).
Variable ParseYAMLFile : string → string → string → bool → result Services.
Variable yamlFile : string.
Variable updateGitignore : option error.
Variable filepath_Join : string → string → string.
Variable strconv_Quote : string → string.
Variable cmd_Start : Cmd → option error.
Variable cmd_Wait : Cmd → option error.
Variable cmd_String : Cmd → string.

Local Abbreviation run :=
  (execute deriveFprocess readFiles ParseYAMLFile yamlFile updateGitignore
     filepath_Join strconv_Quote cmd_Start cmd_Wait cmd_String).


(** Any other value of [OPENFAAS_EXPERIMENTAL] enables the command: with one
    argument the [PreRunE] hook returns no error. *)
Lemma PreRunE_other_values name v w :
  environ w !! "OPENFAAS_EXPERIMENTAL" = Some v →
  v ≠ "0" →
  PreRunE [name] w = (None, w).
Proof.
  intros Hv Hne. unfold PreRunE, go_bind, os_LookupEnv. rewrite Hv.
  rewrite decide_False by done. reflexivity.
Qed.

End Command.

(** ** More about the builder *)

Section BuilderEffects.

Variable deriveFprocess : Function → result string.
Variable readFiles : list string → result (gmap string string).
Variable filepath_Join : string → string → string.
Variable strconv_Quote : string → string.

Local Abbreviation build :=
  (buildDockerRun deriveFprocess readFiles filepath_Join strconv_Quote).
Local Abbreviation secrets := (secretsBlock filepath_Join strconv_Quote).
Local Abbreviation missing := (missingNames filepath_Join).
Local Abbreviation stats := (statEvents filepath_Join).
Local Abbreviation outcome := (secretsOutcome filepath_Join strconv_Quote).

Lemma statEvents_secretsAccess dir names :
  Forall (λ e, is_secretsAccess e = true) (stats dir names).
Proof. unfold statEvents. apply Forall_fmap, Forall_forall. done. Qed.

(** The world the secrets block leaves behind. *)
Lemma secretsBlock_snd fnc opts args w :
  (secrets fnc opts args w).2 =
    if decide (Secrets fnc = []) then w
    else
      match cwd w with
      | None => logs [EvAbs localSecretsDir] w
      | Some wd =>
          let dir := filepath_Join wd localSecretsDir in
          if decide (mkdirOk w dir) then
            logs ([EvAbs localSecretsDir; EvMkdirAll dir 448]
                    ++ (if print opts then [] else stats dir (Secrets fnc)))
              (withDir dir 448 w)
          else logs [EvAbs localSecretsDir; EvMkdirAll dir 448] w
      end.
Proof.
  destruct (decide (Secrets fnc = [])) as [Hs|Hs].
  { by rewrite secretsBlock_nil. }
  rewrite secretsBlock_eq by done. cbv zeta.
  destruct (cwd w) as [wd|]; [|reflexivity].
  destruct (decide (mkdirOk w _)).
  2:{ cbn [snd]. rewrite !log_logs. rewrite logs_logs. reflexivity. }
  rewrite withDir_log, !log_logs, !logs_logs.
  destruct (print opts); [reflexivity|].
  destruct (missingNames _ _ _ _); cbn [snd]; by rewrite ?logs_logs.
Qed.

(** The world [buildDockerRun] leaves behind: the calls it logged are
    calls on the secrets directory, and the file system is the one it
    found, possibly with the secrets directory created. *)
Lemma buildDockerRun_world fnc opts w r w' :
  build fnc opts w = (r, w') →
  ∃ es l w0,
    w' = logs es (set_fastrand l w0)
    ∧ Forall (λ e, is_secretsAccess e = true) es
    ∧ (Secrets fnc = [] → es = [])
    ∧ (w0 = w
       ∨ ∃ wd, Secrets fnc ≠ [] ∧ cwd w = Some wd
               ∧ mkdirOk w (filepath_Join wd localSecretsDir)
               ∧ w0 = withDir (filepath_Join wd localSecretsDir) 448 w).
Proof.
  intros Hb.
  assert (Hw : w' = (build fnc opts w).2) by by rewrite Hb.
  clear Hb. rewrite buildDockerRun_eq in Hw.
  destruct (deriveFprocess fnc) as [fprocess|e].
  2:{ exists [], (fastrand w), w. subst w'. rewrite logs_nil.
      repeat split; [by destruct w | constructor | by left]. }
  destruct (readFiles (EnvironmentFile fnc)) as [moreEnv|e].
  2:{ exists [], (tail (fastrand w)), w. subst w'. rewrite logs_nil.
      repeat split; [constructor | by left]. }
  pose proof (secretsBlock_snd fnc opts (argsBeforeSecrets fnc opts moreEnv w)
                (set_fastrand (drop 3 (fastrand w)) w)) as Hsnd.
  destruct (secrets _ _ _ _) as [r0 w0]. cbn [snd] in *. subst w' w0.
  destruct (decide (Secrets fnc = [])) as [Hs|Hs].
  { exists [], (drop 3 (fastrand w)), w. rewrite logs_nil.
    repeat split; [constructor | by left]. }
  change (cwd (set_fastrand ?l w)) with (cwd w).
  change (mkdirOk (set_fastrand ?l w)) with (mkdirOk w).
  destruct (cwd w) as [wd|] eqn:Hcwd.
  2:{ exists [EvAbs localSecretsDir], (drop 3 (fastrand w)), w.
      repeat split; [repeat constructor | done | by left]. }
  cbv zeta. destruct (decide (mkdirOk w _)) as [Hmk|Hmk].
  - rewrite withDir_set_fastrand. eexists _, _, _.
    split; [reflexivity|]. split; [|split; [done|]].
    + apply Forall_app. split; [repeat constructor|].
      destruct (print opts); [constructor | apply statEvents_secretsAccess].
    + right. by exists wd.
  - eexists _, _, w. split; [reflexivity|].
    repeat split; [repeat constructor | done | by left].
Qed.

(** *** The file system after a build *)

Lemma sameFS_refl w : sameFS w w.
Proof. by repeat split. Qed.

Lemma sameFS_sym w1 w2 : sameFS w1 w2 → sameFS w2 w1.
Proof. intros (? & ? & ? & ?). by repeat split. Qed.

Lemma sameFS_trans w1 w2 w3 : sameFS w1 w2 → sameFS w2 w3 → sameFS w1 w3.
Proof.
  intros (? & ? & ? & ?) (? & ? & ? & ?). repeat split; congruence.
Qed.

Lemma mkdirOk_sameFS w1 w2 dir : sameFS w1 w2 → mkdirOk w1 dir ↔ mkdirOk w2 dir.
Proof. intros (_ & Hd & Hf & Hw). unfold mkdirOk. by rewrite Hd, Hf, Hw. Qed.

Lemma mkdirOk_withDir dir perm w : mkdirOk (withDir dir perm w) dir.
Proof.
  left. unfold withDir. case_decide; [done|]. simpl.
  rewrite lookup_insert_eq. by eexists.
Qed.

Lemma withDir_idemp dir perm w :
  withDir dir perm (withDir dir perm w) = withDir dir perm w.
Proof.
  unfold withDir at 1. rewrite decide_True; [done|].
  destruct (mkdirOk_withDir dir perm w) as [?|[_ ?]]; [done|].
  unfold withDir. case_decide; [done|]. simpl.
  rewrite lookup_insert_eq. by eexists.
Qed.

Lemma cwd_withDir dir perm w : cwd (withDir dir perm w) = cwd w.
Proof. unfold withDir. case_decide; reflexivity. Qed.

Lemma reachesMkdir_sameFS fnc w1 w2 :
  sameFS w1 w2 →
  reachesMkdir deriveFprocess readFiles filepath_Join fnc w1
  = reachesMkdir deriveFprocess readFiles filepath_Join fnc w2.
Proof.
  intros HFS. unfold reachesMkdir. pose proof HFS as (Hc & _).
  rewrite Hc. destruct (cwd w2) as [wd|] eqn:Hcwd; [|done].
  f_equal. by apply bool_decide_ext, mkdirOk_sameFS.
Qed.

Lemma fsAfter_sameFS fnc w1 w2 :
  sameFS w1 w2 →
  sameFS (fsAfter deriveFprocess readFiles filepath_Join fnc w1)
    (fsAfter deriveFprocess readFiles filepath_Join fnc w2).
Proof.
  intros HFS. unfold fsAfter.
  rewrite (reachesMkdir_sameFS fnc w1 w2 HFS).
  pose proof HFS as (Hc & _). rewrite Hc.
  destruct (cwd w2) as [wd|] eqn:Hcwd; [|done].
  destruct (reachesMkdir _ _ _ _ _); [by apply withDir_sameFS | done].
Qed.

Lemma reachesMkdir_mkdirOk fnc w wd :
  cwd w = Some wd →
  reachesMkdir deriveFprocess readFiles filepath_Join fnc w = true →
  Secrets fnc ≠ [] ∧ mkdirOk w (filepath_Join wd localSecretsDir).
Proof.
  unfold reachesMkdir. intros ->.
  rewrite !andb_true_iff, !bool_decide_eq_true. tauto.
Qed.

Lemma fsAfter_idemp fnc w :
  fsAfter deriveFprocess readFiles filepath_Join fnc
    (fsAfter deriveFprocess readFiles filepath_Join fnc w)
  = fsAfter deriveFprocess readFiles filepath_Join fnc w.
Proof.
  unfold fsAfter at 2. destruct (cwd w) as [wd|] eqn:Hcwd.
  2:{ unfold fsAfter. by rewrite Hcwd. }
  destruct (reachesMkdir _ _ _ fnc w) eqn:Hreach.
  2:{ unfold fsAfter. by rewrite Hcwd, Hreach. }
  unfold fsAfter. rewrite cwd_withDir, !Hcwd, Hreach.
  destruct (reachesMkdir _ _ _ fnc (withDir _ _ _));
    [apply withDir_idemp | done].
Qed.

(** After [buildDockerRun] the file system is [fsAfter]. *)
Lemma buildDockerRun_fsAfter fnc opts w r w' :
  build fnc opts w = (r, w') →
  sameFS w' (fsAfter deriveFprocess readFiles filepath_Join fnc w).
Proof.
  intros Hb.
  assert (Hw : w' = (build fnc opts w).2) by by rewrite Hb.
  clear Hb. rewrite buildDockerRun_eq in Hw.
  unfold fsAfter, reachesMkdir.
  destruct (deriveFprocess fnc) as [fprocess|e].
  2:{ subst w'. simpl. destruct (cwd w); apply sameFS_refl. }
  destruct (readFiles (EnvironmentFile fnc)) as [moreEnv|e].
  2:{ subst w'. simpl. destruct (cwd w); by repeat split. }
  pose proof (secretsBlock_snd fnc opts (argsBeforeSecrets fnc opts moreEnv w)
                (set_fastrand (drop 3 (fastrand w)) w)) as Hsnd.
  destruct (secrets _ _ _ _) as [r0 w0]. cbn [snd] in *. subst w' w0.
  cbn [is_Ok andb].
  destruct (decide (Secrets fnc = [])) as [Hs|Hs].
  { rewrite bool_decide_eq_false_2 by (intros ?; done).
    destruct (cwd w); by repeat split. }
  rewrite bool_decide_eq_true_2 by done. cbn [andb].
  change (cwd (set_fastrand ?l w)) with (cwd w).
  change (mkdirOk (set_fastrand ?l w)) with (mkdirOk w).
  destruct (cwd w) as [wd|]; [|by repeat split].
  cbv zeta. destruct (decide (mkdirOk w _)) as [Hmk|Hmk].
  - rewrite bool_decide_eq_true_2 by done.
    rewrite withDir_set_fastrand. by repeat split.
  - rewrite bool_decide_eq_false_2 by done. by repeat split.
Qed.

Lemma secretsOutcome_fsAfter fnc opts w :
  outcome fnc opts (fsAfter deriveFprocess readFiles filepath_Join fnc w)
  = outcome fnc opts w.
Proof.
  unfold fsAfter. destruct (cwd w) as [wd|] eqn:Hcwd; [|done].
  destruct (reachesMkdir _ _ _ fnc w) eqn:Hreach; [|done].
  destruct (reachesMkdir_mkdirOk fnc w wd Hcwd Hreach) as [Hs Hmk].
  unfold secretsOutcome. rewrite cwd_withDir, Hcwd.
  destruct (decide (Secrets fnc = [])); [done|].
  rewrite (decide_True _ _ Hmk).
  rewrite (decide_True _ _ (mkdirOk_withDir _ 448 w)).
  by rewrite withDir_idemp.
Qed.

(** X1: building a second time, on the world the first build left, ends
    like the first time and leaves the file system as the first build left
    it: the same error, or two command lines with the same flags in the
    same places, in which each of the three environment layers lists the
    entries of its map ([Environment], the map read from the environment
    files, [extraEnv]) in the order of that call's range; when no map has
    more than one entry the two commands are equal. *)
Theorem second_build_repeats_first fnc opts w r1 w1 r2 w2 :
  build fnc opts w = (r1, w1) →
  build fnc opts w1 = (r2, w2) →
  sameFS w2 w1
  ∧ match r1, r2 with
    | Ok cmd1, Ok cmd2 =>
        ∃ fprocess moreEnv vol env1 env2 more1 more2 extra1 extra2,
          deriveFprocess fnc = Ok fprocess
          ∧ readFiles (EnvironmentFile fnc) = Ok moreEnv
          ∧ outcome fnc opts w = Ok vol
          ∧ env1 ≡ₚ map_to_list (Environment fnc)
          ∧ env2 ≡ₚ map_to_list (Environment fnc)
          ∧ more1 ≡ₚ map_to_list moreEnv
          ∧ more2 ≡ₚ map_to_list moreEnv
          ∧ extra1 ≡ₚ map_to_list (extraEnv opts)
          ∧ extra2 ≡ₚ map_to_list (extraEnv opts)
          ∧ cmdline cmd1 = layeredLine fnc opts env1 more1 extra1 vol fprocess
          ∧ cmdline cmd2 = layeredLine fnc opts env2 more2 extra2 vol fprocess
          ∧ ((size (Environment fnc) ≤ 1)%nat → (size moreEnv ≤ 1)%nat →
             (size (extraEnv opts) ≤ 1)%nat → cmd1 = cmd2)
    | Err e1, Err e2 => e1 = e2
    | _, _ => False
    end.
Proof.
  intros Hb1 Hb2.
  pose proof (buildDockerRun_fsAfter _ _ _ _ _ Hb1) as HFS1.
  pose proof (buildDockerRun_fsAfter _ _ _ _ _ Hb2) as HFS2.
  split.
  - eapply sameFS_trans; [exact HFS2|].
    eapply sameFS_trans; [apply fsAfter_sameFS, HFS1|].
    rewrite fsAfter_idemp. by apply sameFS_sym.
  - assert (Hr1 : r1 = (build fnc opts w).1) by by rewrite Hb1.
    assert (Hr2 : r2 = (build fnc opts w1).1) by by rewrite Hb2.
    rewrite buildDockerRun_result in Hr1, Hr2.
    rewrite (secretsOutcome_sameFS deriveFprocess _ _ fnc opts w1 _ HFS1),
      secretsOutcome_fsAfter in Hr2.
    subst r1 r2.
    destruct (deriveFprocess fnc) as [fprocess|e]; [|done].
    destruct (readFiles (EnvironmentFile fnc)) as [moreEnv|e]; [|done].
    destruct (outcome fnc opts w) as [vol|e]; [|done].
    rewrite !layeredLine_mapiter.
    exists fprocess, moreEnv, vol,
      (mapiter (draw 0 w) (Environment fnc)),
      (mapiter (draw 0 w1) (Environment fnc)),
      (mapiter (draw 1 w) moreEnv), (mapiter (draw 1 w1) moreEnv),
      (mapiter (draw 2 w) (extraEnv opts)),
      (mapiter (draw 2 w1) (extraEnv opts)).
    do 3 (split; [reflexivity|]).
    do 6 (split; [apply mapiter_Permutation|]).
    do 2 (split; [apply cmdline_exec_Command|]).
    intros He Hm Hx. by rewrite !mapiter_single.
Qed.

Lemma newEvents_logs es l w0 w :
  trace w0 = trace w → newEvents w (logs es (set_fastrand l w0)) = es.
Proof.
  intros Htr. unfold newEvents; simpl. rewrite Htr. apply drop_app_length.
Qed.

(** X2: whatever the outcome, [buildDockerRun] leaves the regular files and
    the working directory alone, keeps every directory with its mode, and
    can add one directory only: the secrets directory, with mode [0700],
    and only for a function that declares secrets. *)
Theorem build_adds_only_secrets_directory fnc opts w r w' :
  build fnc opts w = (r, w') →
  files w' = files w
  ∧ cwd w' = cwd w
  ∧ dirs w ⊆ dirs w'
  ∧ (∀ path, dirs w !! path = None → is_Some (dirs w' !! path) →
       Secrets fnc ≠ []
       ∧ ∃ wd, cwd w = Some wd
               ∧ path = filepath_Join wd localSecretsDir
               ∧ dirs w' !! path = Some 448).
Proof.
  intros Hb. apply buildDockerRun_fsAfter in Hb as (Hc & Hd & Hf & _).
  rewrite Hc, Hd, Hf. clear Hc Hd Hf.
  assert (Hsame : ∀ w0 : World,
    dirs w0 = dirs w →
    dirs w ⊆ dirs w0
    ∧ (∀ path, dirs w !! path = None → is_Some (dirs w0 !! path) →
         Secrets fnc ≠ []
         ∧ ∃ wd, cwd w = Some wd
                 ∧ path = filepath_Join wd localSecretsDir
                 ∧ dirs w0 !! path = Some 448)).
  { intros w0 ->. split; [done|]. intros path Hn [x Hx]. congruence. }
  unfold fsAfter.
  destruct (cwd w) as [wd|] eqn:Hcwd.
  2:{ rewrite Hcwd. split; [done|]. split; [done|]. by apply Hsame. }
  destruct (reachesMkdir _ _ _ fnc w) eqn:Hreach.
  2:{ rewrite Hcwd. split; [done|]. split; [done|]. by apply Hsame. }
  destruct (reachesMkdir_mkdirOk fnc w wd Hcwd Hreach) as [Hs Hmk].
  unfold withDir. case_decide as Hex.
  { rewrite Hcwd. split; [done|]. split; [done|]. by apply Hsame. }
  simpl. split; [done|]. split; [done|]. split.
  - apply insert_subseteq. by apply eq_None_not_Some.
  - intros path Hn Hsome. split; [done|]. exists wd. split; [done|].
    destruct (decide (path = filepath_Join wd localSecretsDir)) as [->|Hne].
    + by rewrite lookup_insert_eq.
    + rewrite lookup_insert_ne in Hsome by done.
      rewrite Hn in Hsome. by destruct Hsome.
Qed.

(** X3: when the entrypoint derivation or the reading of the environment
    files fails, the build returns that error as it is and makes no call
    on the secrets directory, also for a function that declares secrets. *)
Theorem early_failure_skips_secrets fnc opts w e :
  deriveFprocess fnc = Err e
  ∨ (is_Ok (deriveFprocess fnc) = true
     ∧ readFiles (EnvironmentFile fnc) = Err e) →
  ∃ w', build fnc opts w = (Err e, w')
        ∧ trace w' = trace w ∧ dirs w' = dirs w ∧ files w' = files w.
Proof.
  intros [Hd|[Hd Hr]]; rewrite buildDockerRun_eq.
  - rewrite Hd. by eexists.
  - destruct (deriveFprocess fnc); [|done]. rewrite Hr. by eexists.
Qed.

(** X4: for a function with secrets, when the working directory cannot be
    determined the build fails with the error of the path resolution
    wrapped in "can't determine secrets folder"; no directory is created
    and no file is looked up. *)
Theorem unresolved_secrets_path_stops_build fnc opts w :
  Secrets fnc ≠ [] →
  is_Ok (deriveFprocess fnc) = true →
  is_Ok (readFiles (EnvironmentFile fnc)) = true →
  cwd w = None →
  ∃ inner w',
    build fnc opts w
    = (Err (wrapError
              ("can't determine secrets folder: " +:+ Error strconv_Quote inner)
              inner), w')
    ∧ newEvents w w' = [EvAbs localSecretsDir]
    ∧ dirs w' = dirs w.
Proof.
  intros Hs Hd Hr Hcwd. rewrite buildDockerRun_eq.
  destruct (deriveFprocess fnc); [|done].
  destruct (readFiles (EnvironmentFile fnc)); [|done].
  rewrite secretsBlock_eq by done. cbv zeta.
  change (cwd (set_fastrand ?l w)) with (cwd w). rewrite Hcwd.
  exists (errorString "getwd: no such file or directory"). eexists.
  split; [reflexivity|]. split; [|done].
  rewrite log_logs. by apply newEvents_logs.
Qed.

(** X5: for a function with secrets, when the secrets directory neither
    exists nor can be created the build fails with the error of the
    directory creation wrapped in "can't create local secrets folder", in
    print mode as well; no file is looked up and the file system is left
    as it was. *)
Theorem uncreatable_secrets_directory_stops_build fnc opts w wd :
  let dir := filepath_Join wd localSecretsDir in
  Secrets fnc ≠ [] →
  is_Ok (deriveFprocess fnc) = true →
  is_Ok (readFiles (EnvironmentFile fnc)) = true →
  cwd w = Some wd →
  ¬ mkdirOk w dir →
  ∃ w',
    build fnc opts w
    = (Err (wrapError
              ("can't create local secrets folder " +:+ strconv_Quote dir
                 +:+ ": " +:+ Error strconv_Quote (mkdirError w dir))
              (mkdirError w dir)), w')
    ∧ newEvents w w' = [EvAbs localSecretsDir; EvMkdirAll dir 448]
    ∧ dirs w' = dirs w ∧ files w' = files w.
Proof.
  intros dir Hs Hd Hr Hcwd Hmk. rewrite buildDockerRun_eq.
  destruct (deriveFprocess fnc); [|done].
  destruct (readFiles (EnvironmentFile fnc)); [|done].
  rewrite secretsBlock_eq by done. cbv zeta.
  change (cwd (set_fastrand ?l w)) with (cwd w). rewrite Hcwd.
  change (mkdirOk (set_fastrand ?l w)) with (mkdirOk w).
  fold dir. rewrite decide_False by done.
  eexists. split; [reflexivity|]. split; [|done].
  rewrite !log_logs, logs_logs. by apply newEvents_logs.
Qed.

(** X6: for a function with secrets built with [print = false], once the
    steps before the file check have succeeded, the build succeeds exactly
    when every declared secret has a file in the secrets directory; either
    way each declared secret is looked up once, in the declared order,
    after the path resolution and the directory creation; a command that
    is built carries the volume flag. *)
Theorem build_succeeds_iff_secrets_present fnc opts w wd r w' :
  let dir := filepath_Join wd localSecretsDir in
  let fs := withDir dir 448 w in
  Secrets fnc ≠ [] →
  print opts = false →
  is_Ok (deriveFprocess fnc) = true →
  is_Ok (readFiles (EnvironmentFile fnc)) = true →
  cwd w = Some wd →
  mkdirOk w dir →
  build fnc opts w = (r, w') →
  (is_Ok r = true
   ↔ ∀ name, name ∈ Secrets fnc → ¬ absent fs (filepath_Join dir name))
  ∧ newEvents w w'
    = [EvAbs localSecretsDir; EvMkdirAll dir 448] ++ stats dir (Secrets fnc)
  ∧ (∀ cmd, r = Ok cmd → volumeFlag dir ∈ flags cmd).
Proof.
  intros dir fs Hs Hp Hd Hr Hcwd Hmk Hb.
  destruct (deriveFprocess fnc) as [fprocess|] eqn:Hd'; [|done].
  destruct (readFiles (EnvironmentFile fnc)) as [moreEnv|] eqn:Hr'; [|done].
  rewrite (buildDockerRun_secrets _ _ _ _ fnc opts w fprocess moreEnv wd) in Hb
    by done.
  rewrite Hp in Hb. fold dir fs in Hb.
  assert (Hnil : missing fs dir (Secrets fnc) = []
                 ↔ ∀ name, name ∈ Secrets fnc
                           → ¬ absent fs (filepath_Join dir name)).
  { split.
    - intros Hm name Hin Habs.
      assert (name ∈ missing fs dir (Secrets fnc)) as Hn
        by by apply (elem_of_missingNames readFiles _ strconv_Quote).
      rewrite Hm in Hn. by apply not_elem_of_nil in Hn.
    - intros Hall. destruct (missing fs dir (Secrets fnc)) as [|n m] eqn:Hm;
        [done|].
      assert (n ∈ missing fs dir (Secrets fnc)) as Hn
        by (rewrite Hm; constructor).
      apply (elem_of_missingNames readFiles _ strconv_Quote) in Hn
        as [Hin Habs].
      destruct (Hall n Hin Habs). }
  assert (Hev : newEvents w
            (logs (stats dir (Secrets fnc))
               (logs [EvAbs localSecretsDir; EvMkdirAll dir 448]
                  (set_fastrand (drop 3 (fastrand w)) fs)))
          = [EvAbs localSecretsDir; EvMkdirAll dir 448]
              ++ stats dir (Secrets fnc)).
  { rewrite logs_logs. apply newEvents_logs, trace_withDir. }
  destruct (missing fs dir (Secrets fnc)) as [|n m] eqn:Hm;
    pose proof (f_equal fst Hb) as Hr0; pose proof (f_equal snd Hb) as Hw0;
    cbn [fst snd] in Hr0, Hw0; subst r w'; clear Hb.
  - split; [|split; [exact Hev|]].
    + split; [intros _; by apply Hnil | done].
    + intros cmd Hc.
      assert (Hc' : exec_Command "docker"
                (argsBeforeSecrets fnc opts moreEnv w
                   ++ [volumeFlag dir; fprocessFlag fprocess; Image fnc])
              = cmd) by congruence.
      rewrite <- Hc'.
      change [volumeFlag dir; fprocessFlag fprocess; Image fnc]
        with ([volumeFlag dir] ++ [fprocessFlag fprocess; Image fnc]).
      rewrite app_assoc, flags_exec_Command, !elem_of_app.
      left. right. constructor.
  - split; [|split; [exact Hev | done]].
    split; [done|]. intros Hall. apply Hnil in Hall. done.
Qed.

(** *** Where the flags come from *)

Lemma filter_no_flag (P : string → bool) (l : list string) :
  Forall (λ s, P s = false) l → filter (λ s, P s = true) l = [].
Proof.
  induction 1 as [|s l Hs _ IH]; [done|].
  rewrite filter_cons_False; [exact IH|]. by rewrite Hs.
Qed.

Lemma filter_one_flag (P : string → bool) (s : string) :
  P s = true → filter (λ s, P s = true) [s] = [s].
Proof. intros Hs. by rewrite filter_cons_True. Qed.

Lemma vol_cases fnc opts w w' vol :
  (Secrets fnc = [] ∧ vol = [] ∧ w' = set_fastrand (drop 3 (fastrand w)) w)
  ∨ (Secrets fnc ≠ []
     ∧ ∃ wd,
         let dir := filepath_Join wd localSecretsDir in
         cwd w = Some wd ∧ mkdirOk w dir ∧ vol = [volumeFlag dir]
         ∧ (print opts = false →
            missing (withDir dir 448 w) dir (Secrets fnc) = [])
         ∧ w' = logs
                  ([EvAbs localSecretsDir; EvMkdirAll dir 448]
                     ++ (if print opts then []
                         else stats dir (Secrets fnc)))
                  (set_fastrand (drop 3 (fastrand w))
                     (withDir dir 448 w))) →
  vol = [] ∨ ∃ dir, vol = [volumeFlag dir].
Proof. intros [(_ & -> & _)|(_ & wd & _ & _ & -> & _)]; eauto. Qed.

(** X7: in a command that is built, the only port-publish flag is the one
    of the [port] option and the only network flags are those of the
    [network] option: no entry of an environment map, no limit and no
    secrets path adds one. *)
Theorem port_and_network_flags_from_options fnc opts w cmd w' :
  build fnc opts w = (Ok cmd, w') →
  filter (λ s, is_portFlag s = true) (flags cmd) = [portFlag opts]
  ∧ filter (λ s, is_networkFlag s = true) (flags cmd) = networkFlags opts.
Proof.
  intros Hb. apply buildDockerRun_Ok in Hb
    as (fprocess & moreEnv & vol & _ & _ & -> & Hvol).
  apply vol_cases in Hvol.
  rewrite app_assoc, flags_exec_Command. unfold argsBeforeSecrets.
  change ["run"; "--rm"; "-i"; portFlag opts]
    with (["run"; "--rm"; "-i"] ++ [portFlag opts]).
  rewrite !filter_app. split.
  - rewrite (filter_one_flag is_portFlag (portFlag opts))
      by apply prefix_append.
    rewrite !(filter_no_flag is_portFlag); try done;
      try (apply envFlags_Forall; reflexivity);
      try (destruct Hvol as [->|[dir ->]]); flag_pieces.
  - rewrite (filter_no_flag is_networkFlag ["run"; "--rm"; "-i"])
      by repeat constructor.
    rewrite (filter_no_flag is_networkFlag [portFlag opts])
      by repeat constructor.
    assert (Hnet : filter (λ s, is_networkFlag s = true) (networkFlags opts)
                   = networkFlags opts).
    { unfold networkFlags. case_decide; [|done].
      apply filter_one_flag, prefix_append. }
    rewrite Hnet.
    rewrite !(filter_no_flag is_networkFlag); rewrite ?app_nil_r; try done;
      try (apply envFlags_Forall; reflexivity);
      try (destruct Hvol as [->|[dir ->]]); flag_pieces.
Qed.

(** X8: a command that is built carries the flag [--read-only] exactly when
    the function asks for a read-only root file system. *)
Theorem read_only_flag_iff fnc opts w cmd w' :
  build fnc opts w = (Ok cmd, w') →
  "--read-only" ∈ flags cmd ↔ ReadOnlyRootFilesystem fnc = true.
Proof.
  intros Hb. apply buildDockerRun_Ok in Hb
    as (fprocess & moreEnv & vol & _ & _ & -> & Hvol).
  apply vol_cases in Hvol.
  rewrite app_assoc, flags_exec_Command. unfold argsBeforeSecrets.
  split.
  - intros Hin. destruct (ReadOnlyRootFilesystem fnc) eqn:Hro; [done|].
    exfalso.
    revert Hin. unfold readOnlyFlags. rewrite Hro. intros Hin.
    match type of Hin with
    | _ ∈ ?l =>
        assert (Hall : Forall (λ s, String.prefix "--read-only" s = false) l)
    end.
    { destruct Hvol as [->|[dir ->]]; no_such_flag. }
    rewrite Forall_forall in Hall. specialize (Hall _ Hin). done.
  - intros Hro. unfold readOnlyFlags. rewrite Hro.
    rewrite !elem_of_app. do 2 left. do 5 right. left. constructor.
Qed.

(** X9: the argument list of a command that is built starts with the
    program name [docker] and the arguments [run --rm -i -p=PORT:8080], in
    this order, whatever the function and the options are; the builder
    sets no output stream. *)
Theorem command_is_docker_run fnc opts w cmd w' :
  build fnc opts w = (Ok cmd, w') →
  (∃ rest, Args cmd = ["docker"; "run"; "--rm"; "-i"; portFlag opts] ++ rest)
  ∧ Stdout cmd = None ∧ Stderr cmd = None.
Proof.
  intros Hb. apply buildDockerRun_Ok in Hb
    as (fprocess & moreEnv & vol & _ & _ & -> & _).
  split; [|done].
  unfold argsBeforeSecrets. eexists. simpl. reflexivity.
Qed.

(** *** The file check on its own *)

(** X10: [dirContainsFiles] looks up each name once, in order, and changes
    no file or directory; it returns no error exactly when every name
    exists in the directory (in particular for no names at all);
    otherwise its error holds the directory and the absent names, in the
    order of the names given. *)
Theorem dirContainsFiles_reports_absent_names dir names w r w' :
  dirContainsFiles filepath_Join dir names w = (r, w') →
  newEvents w w' = stats dir names
  ∧ dirs w' = dirs w ∧ files w' = files w
  ∧ (r = None ↔ ∀ name, name ∈ names → ¬ absent w (filepath_Join dir name))
  ∧ (∀ e, r = Some e →
       ∃ m, e = missingFileError m dir ∧ m ≠ [] ∧ m `sublist_of` names
            ∧ ∀ name, name ∈ m
                      ↔ name ∈ names ∧ absent w (filepath_Join dir name)).
Proof.
  rewrite dirContainsFiles_eq; [|exact (λ q : string, q)]. intros Hb.
  pose proof (f_equal fst Hb) as Hr. pose proof (f_equal snd Hb) as Hw.
  cbn [fst snd] in Hr, Hw. subst r w'. clear Hb.
  split.
  { unfold newEvents; simpl. apply drop_app_length. }
  split; [done|]. split; [done|].
  pose proof (elem_of_missingNames (λ _, Ok ∅) filepath_Join (λ q, q)
                w dir names) as Hmem.
  assert (Hsub : missing w dir names `sublist_of` names)
    by apply sublist_filter.
  destruct (missing w dir names) as [|n m] eqn:Hm.
  - split; [|done]. split; [|done]. intros _ name Hin Habs.
    assert (name ∈ @nil string) as Hn by (apply Hmem; done).
    by apply not_elem_of_nil in Hn.
  - split.
    + split; [done|]. intros Hall. exfalso.
      assert (n ∈ n :: m) as Hn by constructor.
      apply Hmem in Hn as [Hin Habs]. exact (Hall n Hin Habs).
    + intros e [= <-]. exists (n :: m).
      split; [done|]. split; [done|]. split; [done|]. exact Hmem.
Qed.

(** *** Adding a name to the error *)

Lemma string_app_assoc (a b c : string) : (a +:+ b) +:+ c = a +:+ b +:+ c.
Proof.
  induction a as [|x a IH]; [reflexivity|].
  change ((String x a +:+ b) +:+ c) with (String x ((a +:+ b) +:+ c)).
  change (String x a +:+ b +:+ c) with (String x (a +:+ b +:+ c)).
  by rewrite IH.
Qed.

Lemma concat_snoc (sep : string) (l : list string) (p : string) :
  l ≠ [] → String.concat sep (l ++ [p]) = String.concat sep l +:+ sep +:+ p.
Proof.
  induction l as [|x l IH]; [done|]. intros _.
  destruct l as [|y l]; [reflexivity|].
  change (String.concat sep ((x :: y :: l) ++ [p]))
    with (x +:+ sep +:+ String.concat sep ((y :: l) ++ [p])).
  rewrite IH by done.
  change (String.concat sep (x :: y :: l))
    with (x +:+ sep +:+ String.concat sep (y :: l)).
  by rewrite !string_app_assoc.
Qed.

(** X11: [AddMissingSecret] keeps the directory and the names already listed
    and puts the new name last, whatever the list was: the message of an
    error that lists names becomes the old list, then [", "] and the new
    name, and the message of an error that lists none names the new name
    alone. *)
Theorem AddMissingSecret_appends_name missing dir p :
  AddMissingSecret (missingFileError missing dir) p
  = missingFileError (missing ++ [p]) dir
  ∧ (missing ≠ [] →
     Error strconv_Quote (AddMissingSecret (missingFileError missing dir) p)
     = "create the following secrets ("
         +:+ (String.concat ", " missing +:+ ", " +:+ p)
         +:+ ") in: " +:+ strconv_Quote dir)
  ∧ (missing = [] →
     Error strconv_Quote (AddMissingSecret (missingFileError missing dir) p)
     = "create the following secrets (" +:+ p +:+ ") in: "
         +:+ strconv_Quote dir).
Proof.
  split; [reflexivity|]. split.
  - intros Hne. cbn [AddMissingSecret Error]. by rewrite concat_snoc.
  - intros ->. reflexivity.
Qed.

End BuilderEffects.

(** ** The run orchestration *)

Section RunEffects.

Variable deriveFprocess : Function → result string.
Variable readFiles : list string → result (gmap string string).
Variable ParseYAMLFile : string → string → string → bool → result Services.
Variable yamlFile : string.
Variable updateGitignore : option error.
Variable filepath_Join : string → string → string.
Variable strconv_Quote : string → string.
Variable cmd_Start : Cmd → option error.
Variable cmd_Wait : Cmd → option error.
Variable cmd_String : Cmd → string.

Local Abbreviation build :=
  (buildDockerRun deriveFprocess readFiles filepath_Join strconv_Quote).
Local Abbreviation run :=
  (runFunction deriveFprocess readFiles ParseYAMLFile yamlFile updateGitignore
     filepath_Join strconv_Quote cmd_Start cmd_Wait cmd_String).
Local Abbreviation command :=
  (execute deriveFprocess readFiles ParseYAMLFile yamlFile updateGitignore
     filepath_Join strconv_Quote cmd_Start cmd_Wait cmd_String).

(** [runFunction], step by step. *)
Lemma runFunction_eq name opts w :
  run name opts w =
    let w1 := logs [EvParseYAMLFile yamlFile name] w in
    match ParseYAMLFile yamlFile "" name true with
    | Err e => (Some e, w1)
    | Ok services =>
        if decide (1 < size (Functions services))%nat then
          (Some (errorString
             ("multiple functions matching " +:+ strconv_Quote name
                +:+ " in the stack file")), w1)
        else
          let w2 := logs [EvParseYAMLFile yamlFile name; EvUpdateGitignore] w in
          match updateGitignore with
          | Some e => (Some e, w2)
          | None =>
              let fnc := default Function_zero (Functions services !! name) in
              let '(built, w3) := build fnc opts w2 in
              match built with
              | Err e => (Some e, w3)
              | Ok cmd =>
                  if print opts then
                    (None, logs [EvWrite (output opts) (cmd_String cmd +:+ LF)] w3)
                  else
                    let cmd' := wired cmd (output opts) (err opts) in
                    match cmd_Start cmd' with
                    | Some e =>
                        (Some e,
                         logs [EvPrintf (startNotice name opts); EvStart cmd'] w3)
                    | None =>
                        (cmd_Wait cmd',
                         logs [EvPrintf (startNotice name opts); EvStart cmd';
                               EvWait cmd'] w3)
                    end
              end
          end
    end.
Proof.
  unfold runFunction, go_bind, go_log, go_ret. cbv zeta.
  destruct (ParseYAMLFile yamlFile "" name true) as [services|e];
    [|reflexivity].
  destruct (decide (1 < size (Functions services))%nat); [reflexivity|].
  rewrite !log_logs, logs_logs.
  change ([EvParseYAMLFile yamlFile name] ++ [EvUpdateGitignore])
    with [EvParseYAMLFile yamlFile name; EvUpdateGitignore].
  destruct updateGitignore as [e|]; [reflexivity|].
  destruct (build _ opts _) as [[cmd|e] w3]; [|reflexivity].
  destruct (print opts); [reflexivity|].
  fold (wired cmd (output opts) (err opts)). fold (startNotice name opts).
  rewrite !log_logs, !logs_logs.
  destruct (cmd_Start _); [reflexivity|].
  rewrite log_logs, logs_logs. reflexivity.
Qed.

Lemma buildDockerRun_trace fnc opts w r w' :
  build fnc opts w = (r, w') →
  ∃ es, trace w' = trace w ++ es
        ∧ Forall (λ e, is_secretsAccess e = true) es.
Proof.
  intros Hb. apply buildDockerRun_world in Hb
    as (es & l & w0 & -> & Hes & _ & Hw0).
  exists es. split; [|done]. simpl.
  destruct Hw0 as [->|(wd & _ & _ & _ & ->)]; [done|].
  by rewrite trace_withDir.
Qed.

Lemma newEvents_app w w' es :
  trace w' = trace w ++ es → newEvents w w' = es.
Proof. intros Htr. unfold newEvents. rewrite Htr. apply drop_app_length. Qed.

Lemma secretsAccess_not_process es :
  Forall (λ e, is_secretsAccess e = true) es →
  Forall (λ e, is_processEvent e = false ∧ is_outputEvent e = false) es.
Proof. intros Hes. eapply Forall_impl; [exact Hes|]. intros [] ?; done. Qed.

(** X12: [runFunction] returns early, before the ignore list is touched,
    with the loader's error as it is when the stack file cannot be loaded,
    and with its own error when more than one function matches; it returns
    the error of the ignore-list update as it is, before anything is
    built.  In these cases the only calls made are the loading and, in the
    last one, the update. *)
Theorem resolution_failures_stop_before_build name opts w :
  (∀ e, ParseYAMLFile yamlFile "" name true = Err e →
        run name opts w = (Some e, logs [EvParseYAMLFile yamlFile name] w))
  ∧ (∀ services,
       ParseYAMLFile yamlFile "" name true = Ok services →
       (1 < size (Functions services))%nat →
       run name opts w
       = (Some (errorString
            ("multiple functions matching " +:+ strconv_Quote name
               +:+ " in the stack file")),
          logs [EvParseYAMLFile yamlFile name] w))
  ∧ (∀ services e,
       ParseYAMLFile yamlFile "" name true = Ok services →
       (size (Functions services) ≤ 1)%nat →
       updateGitignore = Some e →
       run name opts w
       = (Some e,
          logs [EvParseYAMLFile yamlFile name; EvUpdateGitignore] w)).
Proof.
  rewrite runFunction_eq. cbv zeta. split; [|split].
  - intros e ->. reflexivity.
  - intros services -> Hsize. by rewrite decide_True.
  - intros services e -> Hsize ->. by rewrite decide_False by lia.
Qed.

(** X13: when the build fails, [runFunction] returns the builder's error as
    it is; the stack file was loaded and the ignore list updated, but
    nothing is written to the output and no process is started. *)
Theorem build_failure_starts_nothing name opts w services e w3 :
  ParseYAMLFile yamlFile "" name true = Ok services →
  (size (Functions services) ≤ 1)%nat →
  updateGitignore = None →
  build (default Function_zero (Functions services !! name)) opts
    (logs [EvParseYAMLFile yamlFile name; EvUpdateGitignore] w) = (Err e, w3) →
  run name opts w = (Some e, w3)
  ∧ ∃ es, newEvents w w3
          = [EvParseYAMLFile yamlFile name; EvUpdateGitignore] ++ es
          ∧ Forall (λ e, is_processEvent e = false ∧ is_outputEvent e = false) es.
Proof.
  intros Hp Hsize Hg Hb. rewrite runFunction_eq. cbv zeta.
  rewrite Hp, decide_False, Hg, Hb by lia. split; [done|].
  apply buildDockerRun_trace in Hb as (es & Htr & Hes).
  exists es. split; [|by apply secretsAccess_not_process].
  apply newEvents_app. rewrite Htr. simpl. by rewrite <- app_assoc.
Qed.

(** X14: in print mode, once the command is built, [runFunction] returns no
    error; its one further call writes to the output sink the text of the
    command, as [String] of [exec.Cmd] gives it, followed by a line feed;
    no process is started or waited for in the whole run. *)
Theorem print_mode_writes_command_line name opts w services cmd w3 :
  print opts = true →
  ParseYAMLFile yamlFile "" name true = Ok services →
  (size (Functions services) ≤ 1)%nat →
  updateGitignore = None →
  build (default Function_zero (Functions services !! name)) opts
    (logs [EvParseYAMLFile yamlFile name; EvUpdateGitignore] w) = (Ok cmd, w3) →
  ∃ w',
    run name opts w = (None, w')
    ∧ newEvents w3 w' = [EvWrite (output opts) (cmd_String cmd +:+ LF)]
    ∧ Forall (λ e, is_processEvent e = false) (newEvents w w').
Proof.
  intros Hprint Hp Hsize Hg Hb. rewrite runFunction_eq. cbv zeta.
  rewrite Hp, decide_False, Hg, Hb, Hprint by lia.
  eexists. split; [reflexivity|]. split.
  { unfold newEvents; simpl. by rewrite drop_app_length. }
  apply buildDockerRun_trace in Hb as (es & Htr & Hes).
  apply secretsAccess_not_process in Hes.
  erewrite newEvents_app.
  2:{ simpl. rewrite Htr. simpl. rewrite <- !app_assoc. reflexivity. }
  rewrite !Forall_app. split; [repeat constructor|]. split.
  - eapply Forall_impl; [exact Hes|]. by intros e [He _].
  - repeat constructor.
Qed.

(** X15: in execute mode, once the command is built, [runFunction] prints the
    notice with the function name and the [port] option, wires the output
    and error sinks to the command and starts it; it waits for the process
    only when the start succeeded, and returns the start error, else
    whatever the wait returns. *)
Theorem execute_mode_starts_then_waits name opts w services cmd w3 :
  let cmd' := wired cmd (output opts) (err opts) in
  print opts = false →
  ParseYAMLFile yamlFile "" name true = Ok services →
  (size (Functions services) ≤ 1)%nat →
  updateGitignore = None →
  build (default Function_zero (Functions services !! name)) opts
    (logs [EvParseYAMLFile yamlFile name; EvUpdateGitignore] w) = (Ok cmd, w3) →
  ∃ w',
    run name opts w
    = (match cmd_Start cmd' with Some e => Some e | None => cmd_Wait cmd' end,
       w')
    ∧ newEvents w3 w'
      = [EvPrintf (startNotice name opts); EvStart cmd']
          ++ match cmd_Start cmd' with
             | Some _ => []
             | None => [EvWait cmd']
             end.
Proof.
  intros cmd' Hprint Hp Hsize Hg Hb. rewrite runFunction_eq. cbv zeta.
  rewrite Hp, decide_False, Hg, Hb, Hprint by lia. fold cmd'.
  destruct (cmd_Start cmd'); eexists; (split; [reflexivity|]);
    unfold newEvents; simpl; by rewrite drop_app_length.
Qed.

(** X16: a process is started or waited for only in execute mode, and only
    after the stack file gave at most one function, the ignore list was
    updated and the command was built; the process started is that
    command with its streams wired to the sinks. *)
Theorem process_needs_built_command name opts w r w' :
  run name opts w = (r, w') →
  (∃ e, e ∈ newEvents w w' ∧ is_processEvent e = true) →
  print opts = false
  ∧ ∃ services cmd w3,
      ParseYAMLFile yamlFile "" name true = Ok services
      ∧ (size (Functions services) ≤ 1)%nat
      ∧ updateGitignore = None
      ∧ build (default Function_zero (Functions services !! name)) opts
          (logs [EvParseYAMLFile yamlFile name; EvUpdateGitignore] w)
        = (Ok cmd, w3)
      ∧ EvStart (wired cmd (output opts) (err opts)) ∈ newEvents w w'.
Proof.
  rewrite runFunction_eq. cbv zeta. intros Hrun (ev & Hin & Hev).
  assert (Hlogs : ∀ es, Forall (λ e, is_processEvent e = false) es →
                        ev ∈ newEvents w (logs es w) → False).
  { intros es Hes. unfold newEvents; simpl. rewrite drop_app_length.
    intros Hin'. rewrite Forall_forall in Hes. rewrite (Hes _ Hin') in Hev.
    done. }
  destruct (ParseYAMLFile yamlFile "" name true) as [services|e] eqn:Hp.
  2:{ injection Hrun as <- <-. exfalso. eapply Hlogs; [|exact Hin].
      repeat constructor. }
  destruct (decide (1 < size (Functions services))%nat) as [Hsize|Hsize].
  { injection Hrun as <- <-. exfalso. eapply Hlogs; [|exact Hin].
    repeat constructor. }
  destruct updateGitignore as [e|] eqn:Hg.
  { injection Hrun as <- <-. exfalso. eapply Hlogs; [|exact Hin].
    repeat constructor. }
  destruct (build _ opts _) as [[cmd|e] w3] eqn:Hb.
  2:{ injection Hrun as <- <-. exfalso.
      apply buildDockerRun_trace in Hb as (es & Htr & Hes).
      apply secretsAccess_not_process in Hes.
      assert (Hnew : newEvents w w3
                     = [EvParseYAMLFile yamlFile name; EvUpdateGitignore] ++ es).
      { apply newEvents_app. rewrite Htr. simpl. by rewrite <- app_assoc. }
      rewrite Hnew in Hin. apply elem_of_app in Hin as [Hin|Hin].
      - apply elem_of_cons in Hin as [->|Hin]; [done|].
        apply elem_of_cons in Hin as [->|Hin]; [done|].
        by apply not_elem_of_nil in Hin.
      - rewrite Forall_forall in Hes. destruct (Hes _ Hin) as [Hno _].
        by rewrite Hno in Hev. }
  pose proof Hb as Hb'.
  apply buildDockerRun_trace in Hb' as (es & Htr & Hes).
  apply secretsAccess_not_process in Hes.
  assert (Hpre : trace w3
                 = trace w ++ [EvParseYAMLFile yamlFile name; EvUpdateGitignore]
                     ++ es).
  { rewrite Htr. simpl. by rewrite <- app_assoc. }
  assert (Hnot : ∀ x, x ∈ [EvParseYAMLFile yamlFile name; EvUpdateGitignore]
                            ++ es → is_processEvent x = false).
  { intros x Hx. apply elem_of_app in Hx as [Hx|Hx].
    - apply elem_of_cons in Hx as [->|Hx]; [done|].
      apply elem_of_cons in Hx as [->|Hx]; [done|].
      by apply not_elem_of_nil in Hx.
    - rewrite Forall_forall in Hes. by destruct (Hes _ Hx). }
  destruct (print opts) eqn:Hprint.
  { injection Hrun as <- <-. exfalso.
    assert (Hnew : newEvents w
               (logs [EvWrite (output opts) (cmd_String cmd +:+ LF)] w3)
             = ([EvParseYAMLFile yamlFile name; EvUpdateGitignore] ++ es)
                 ++ [EvWrite (output opts) (cmd_String cmd +:+ LF)]).
    { apply newEvents_app. simpl. rewrite Hpre. by rewrite <- !app_assoc. }
    rewrite Hnew in Hin. apply elem_of_app in Hin as [Hin|Hin].
    - by rewrite (Hnot _ Hin) in Hev.
    - apply elem_of_cons in Hin as [->|Hin]; [done|].
      by apply not_elem_of_nil in Hin. }
  split; [done|]. exists services, cmd, w3.
  split; [done|]. split; [lia|]. split; [done|]. split; [done|].
  assert (Hstart : ∀ tl,
    EvStart (wired cmd (output opts) (err opts))
    ∈ newEvents w
        (logs (EvPrintf (startNotice name opts)
                 :: EvStart (wired cmd (output opts) (err opts)) :: tl) w3)).
  { intros tl. erewrite newEvents_app.
    2:{ simpl. rewrite Hpre. rewrite <- !app_assoc. reflexivity. }
    rewrite !elem_of_app, !elem_of_cons. naive_solver. }
  destruct (cmd_Start _); injection Hrun as <- <-; apply Hstart.
Qed.

Lemma exec_Command_last name args x y :
  last (Args (exec_Command name (args ++ [x; y]))) = Some y.
Proof.
  unfold exec_Command; cbn [Args]. rewrite app_comm_cons.
  change [x; y] with ([x] ++ [y]). rewrite app_assoc. apply last_snoc.
Qed.

(** X17: [runFunction] does not check that the loader returned the
    function asked for: when the stack has no entry under the name, the
    command is built from the zero value of [stack.Function], so in print
    mode, once an entrypoint is derived for it, a command line with an
    empty image is written and no error is returned. *)
Theorem unknown_function_built_from_zero_value
    name opts w services fprocess moreEnv :
  ParseYAMLFile yamlFile "" name true = Ok services →
  (size (Functions services) ≤ 1)%nat →
  Functions services !! name = None →
  updateGitignore = None →
  deriveFprocess Function_zero = Ok fprocess →
  readFiles [] = Ok moreEnv →
  print opts = true →
  ∃ cmd w',
    run name opts w = (None, w')
    ∧ newEvents w w'
      = [EvParseYAMLFile yamlFile name; EvUpdateGitignore;
         EvWrite (output opts) (cmd_String cmd +:+ LF)]
    ∧ last (Args cmd) = Some ""
    ∧ last (flags cmd) = Some (fprocessFlag fprocess).
Proof.
  intros Hp Hsize Hnone Hg Hd Hr Hprint. rewrite runFunction_eq. cbv zeta.
  rewrite Hp, decide_False, Hg, Hnone by lia. cbn [default].
  destruct (build Function_zero opts _) as [r w3] eqn:Hb.
  assert (Hres : r = (build Function_zero opts
            (logs [EvParseYAMLFile yamlFile name; EvUpdateGitignore] w)).1)
    by by rewrite Hb.
  rewrite buildDockerRun_result, Hd in Hres.
  change (EnvironmentFile Function_zero) with (@nil string) in Hres.
  rewrite Hr in Hres. unfold secretsOutcome in Hres.
  rewrite decide_True in Hres by reflexivity.
  apply buildDockerRun_world in Hb as (es & l & w0 & -> & _ & Hes & Hw0).
  rewrite (Hes eq_refl), logs_nil.
  destruct Hw0 as [->|(wd & Hs & _)]; [|done].
  match type of Hres with
  | r = Ok ?c => remember c as cmd eqn:Hcmd
  end.
  subst r. rewrite Hprint. exists cmd. eexists. split; [reflexivity|].
  split; [|split].
  - unfold newEvents; simpl. rewrite <- app_assoc. apply drop_app_length.
  - rewrite Hcmd, app_assoc. apply exec_Command_last.
  - rewrite Hcmd, app_assoc, flags_exec_Command. apply last_snoc.
Qed.

(** X18: with the experimental flag set to a value other than ["0"], the
    command runs [runFunction] exactly when it is given one argument, which
    is the function name, with the command's standard streams as sinks;
    with no argument or with several it returns an error and does
    nothing. *)
Theorem command_needs_one_function_name opts args w v :
  environ w !! "OPENFAAS_EXPERIMENTAL" = Some v →
  v ≠ "0" →
  (∀ name, args = [name] →
     command opts args w
     = run name
         {| print := print opts; port := port opts; network := network opts;
            extraEnv := extraEnv opts; output := "stdout"; err := "stderr" |}
         w)
  ∧ (args = [] →
     command opts args w
     = (Some (errorString "expected the name of the function"), w))
  ∧ ((1 < length args)%nat →
     command opts args w
     = (Some (errorString "only one function name is allowed"), w)).
Proof.
  intros Hv Hne.
  assert (Hpre : PreRunE args w
    = (if decide (length args < 1)%nat
       then Some (errorString "expected the name of the function")
       else if decide (1 < length args)%nat
            then Some (errorString "only one function name is allowed")
            else None, w)).
  { unfold PreRunE, go_bind, os_LookupEnv. rewrite Hv.
    rewrite decide_False by done. repeat case_decide; reflexivity. }
  unfold execute, go_bind. rewrite Hpre. split; [|split].
  - intros name ->. reflexivity.
  - intros ->. reflexivity.
  - intros Hlen. rewrite decide_False by lia. by rewrite decide_True.
Qed.

End RunEffects.


(** ** Concrete runs *)

(** C1, on a concrete run: with [network = "host"] the build succeeds and
    the command line carries both [--network=host] and [-p=8081:8080]. *)
Lemma network_flag_added_port_flag_kept_witness :
  ∃ cmd w',
    Sample.build Sample.stronghash (Sample.options false "host" ∅)
      (Sample.world []) = (Ok cmd, w')
    ∧ "-p=8081:8080" ∈ flags cmd
    ∧ "--network=host" ∈ flags cmd.
Proof.
  destruct (Sample.build Sample.stronghash (Sample.options false "host" ∅)
              (Sample.world [])) as [[cmd|e] w'] eqn:Hb;
    [|vm_compute in Hb; discriminate].
  exists cmd, w'. split; [reflexivity|].
  destruct (network_flag_added_port_flag_kept _ _ _ _ _ _ _ _ _ Hb)
    as (Hport & Hnet & _).
  split; [exact Hport | apply Hnet; discriminate].
Defined.

(** C1 as stated fails: with a non-empty [network] the claim wants a
    network flag and no port-publish flag, but the port-publish flag is
    emitted all the same. *)
Lemma network_does_not_drop_port_flag :
  ¬ (∀ cmd w',
       Sample.build Sample.stronghash (Sample.options false "host" ∅)
         (Sample.world []) = (Ok cmd, w') →
       network (Sample.options false "host" ∅) ≠ "" →
       (∃ s, s ∈ flags cmd ∧ is_networkFlag s = true)
       ∧ ¬ (∃ s, s ∈ flags cmd ∧ is_portFlag s = true)).
Proof.
  intros H.
  destruct (Sample.build Sample.stronghash (Sample.options false "host" ∅)
              (Sample.world [])) as [[cmd|e] w'] eqn:Hb;
    [|vm_compute in Hb; discriminate].
  destruct (H cmd w' eq_refl) as [_ Hno]; [discriminate|].
  apply Hno. exists "-p=8081:8080". split; [|reflexivity].
  vm_compute in Hb. injection Hb as <- _. repeat constructor.
Qed.

(** C2, on a concrete run: the secrets [token] and [key] are declared, the
    secrets directory holds [key] only; the build fails with the one error
    naming [token] and the directory. *)
Lemma missing_secrets_single_error_witness :
  let fnc := Sample.withSecrets ["token"; "key"] in
  let opts := Sample.options false "" ∅ in
  let w := Sample.worldWith ∅ {[ Sample.secretsDir := 448 ]}
             {[ "/home/dev/fn/.secrets/key" ]} in
  (∃ e w', Sample.build fnc opts w = (Err e, w'))
  ∧ (∃ w', Sample.build fnc opts w
           = (Err (missingFilesError Sample.strconv_Quote ["token"]
                     Sample.secretsDir), w'))
  ∧ Error Sample.strconv_Quote
      (missingFilesError Sample.strconv_Quote ["token"] Sample.secretsDir)
    = "missing files: create the following secrets (token) in: "
        +:+ Sample.strconv_Quote "/home/dev/fn/.secrets".
Proof.
  intros fnc opts w.
  destruct (missing_secrets_single_error Sample.deriveFprocess
              Sample.readFiles Sample.filepath_Join Sample.strconv_Quote
              fnc opts w "/home/dev/fn") as [Herr Hgood].
  - discriminate.
  - reflexivity.
  - reflexivity.
  - exists "token". split; [constructor | compute_done].
  - split; [exact Herr|].
    destruct Hgood as (Hb & _ & Hmsg); [reflexivity | reflexivity | compute_done |].
    split; [exact Hb | exact Hmsg].
Defined.

(** C3, on a concrete run: [extraEnv] carries the key [fprocess]; its flag
    comes before the derived fprocess flag, which is followed by the image
    only. *)
Lemma fprocess_flag_then_image_last_witness :
  let opts := Sample.options false "" {[ "fprocess" := "mine" ]} in
  ∃ cmd w',
    Sample.build Sample.stronghash opts (Sample.world []) = (Ok cmd, w')
    ∧ ∃ before extra after,
        extra ≡ₚ map_to_list (extraEnv opts)
        ∧ cmdline cmd
          = before ++ (envFlag <$> extra) ++ after
              ++ ["-e=fprocess=./handler"; "stronghash:latest"]
        ∧ "-e=fprocess=mine" ∈ envFlag <$> extra.
Proof.
  intros opts.
  destruct (Sample.build Sample.stronghash opts (Sample.world []))
    as [[cmd|e] w'] eqn:Hb; [|vm_compute in Hb; discriminate].
  exists cmd, w'. split; [reflexivity|].
  destruct (fprocess_flag_then_image_last _ _ _ _ _ _ _ _ _ Hb)
    as (fprocess & before & extra & after & Hd & Hperm & Hline & Hin).
  injection Hd as <-.
  exists before, extra, after. split; [exact Hperm|]. split; [exact Hline|].
  apply (Hin "fprocess" "mine"). reflexivity.
Defined.

(** C4, on a concrete run: the key [fprocess] is in the function's
    environment and in [extraEnv]; both flags are emitted, the one of
    [extraEnv] further right. *)
Lemma environment_flags_in_three_layers_witness :
  let opts := Sample.options false "" {[ "fprocess" := "mine" ]} in
  ∃ cmd w',
    Sample.build Sample.limited opts (Sample.world []) = (Ok cmd, w')
    ∧ ∃ i j, (i < j)%nat
        ∧ cmdline cmd !! i = Some "-e=fprocess=env"
        ∧ cmdline cmd !! j = Some "-e=fprocess=mine".
Proof.
  intros opts.
  destruct (Sample.build Sample.limited opts (Sample.world []))
    as [[cmd|e] w'] eqn:Hb; [|vm_compute in Hb; discriminate].
  exists cmd, w'. split; [reflexivity|].
  destruct (environment_flags_in_three_layers _ _ _ _ _ _ _ _ _ Hb)
    as (moreEnv & env & more & extra & vol & fprocess & _ & _ & _ & _ & _ & Hdup).
  destruct (Hdup "fprocess" "env" "mine") as (i & j & Hi & Henv & Hextra);
    [reflexivity | reflexivity |].
  eexists _, _. split; [|split; [exact Henv | exact Hextra]]. lia.
Defined.

(** C5, on a concrete run: no map of the function has more than one
    entry, so two calls build the same command although the runtime draws
    differently in them. *)
Lemma command_line_fixed_up_to_map_order_witness :
  let fnc := Sample.limited in
  let opts := Sample.options false "" {[ "FOO" := "bar" ]} in
  let w1 := Sample.world [1%nat; 1%nat; 1%nat] in
  let w2 := Sample.world [] in
  sameFS w1 w2
  ∧ match (Sample.build fnc opts w1).1, (Sample.build fnc opts w2).1 with
    | Ok cmd1, Ok cmd2 => cmd1 = cmd2
    | _, _ => False
    end.
Proof.
  intros fnc opts w1 w2.
  assert (HFS : sameFS w1 w2) by (repeat split).
  split; [exact HFS|].
  pose proof (command_line_fixed_up_to_map_order Sample.deriveFprocess
    Sample.readFiles Sample.filepath_Join Sample.strconv_Quote
    fnc opts w1 w2 HFS) as H.
  fold Sample.build in H.
  destruct (Sample.build fnc opts w1).1 as [cmd1|e1] eqn:E1;
    [|vm_compute in E1; discriminate].
  destruct (Sample.build fnc opts w2).1 as [cmd2|e2] eqn:E2;
    [|vm_compute in E2; discriminate].
  destruct H as (fprocess & moreEnv & vol & env1 & env2 & more1 & more2
    & extra1 & extra2 & _ & Hread & _ & _ & _ & _ & _ & _ & _ & _ & _ & _
    & Hsingle).
  injection Hread as <-.
  apply Hsingle; vm_compute; lia.
Defined.

(** C5 as stated fails: the same function definition and options, on the
    same file system, give two different command lines when the runtime
    ranges over the environment map in two different orders. *)
Lemma repeated_calls_differ :
  ¬ (∀ w1 w2 cmd1 cmd2 w1' w2',
       sameFS w1 w2 →
       Sample.build Sample.stronghash (Sample.options false "" ∅) w1
         = (Ok cmd1, w1') →
       Sample.build Sample.stronghash (Sample.options false "" ∅) w2
         = (Ok cmd2, w2') →
       cmdline cmd1 = cmdline cmd2).
Proof.
  intros H.
  destruct (Sample.build Sample.stronghash (Sample.options false "" ∅)
              (Sample.world [0%nat])) as [[cmd1|e1] w1'] eqn:E1;
    [|vm_compute in E1; discriminate].
  destruct (Sample.build Sample.stronghash (Sample.options false "" ∅)
              (Sample.world [1%nat])) as [[cmd2|e2] w2'] eqn:E2;
    [|vm_compute in E2; discriminate].
  assert (Hsame : cmdline cmd1 = cmdline cmd2).
  { apply (H (Sample.world [0%nat]) (Sample.world [1%nat]) cmd1 cmd2 w1' w2');
      [repeat split | exact E1 | exact E2]. }
  vm_compute in E1, E2. injection E1 as <- _. injection E2 as <- _.
  vm_compute in Hsame. discriminate.
Qed.

(** The two command lines of the runs above. *)
Example repeated_calls_first :
  (Sample.build Sample.stronghash (Sample.options false "" ∅)
     (Sample.world [0%nat])).1
  = Ok (exec_Command "docker"
          ["run"; "--rm"; "-i"; "-p=8081:8080"; "-e=A=1"; "-e=B=2";
           "-e=fprocess=./handler"; "stronghash:latest"]).
Proof. vm_compute. reflexivity. Qed.

Example repeated_calls_second :
  (Sample.build Sample.stronghash (Sample.options false "" ∅)
     (Sample.world [1%nat])).1
  = Ok (exec_Command "docker"
          ["run"; "--rm"; "-i"; "-p=8081:8080"; "-e=B=2"; "-e=A=1";
           "-e=fprocess=./handler"; "stronghash:latest"]).
Proof. vm_compute. reflexivity. Qed.

(** C6, on a concrete run: [print = true], the secrets [token] and [key]
    are declared and neither the secrets directory nor any secret file
    exists; the build succeeds with the volume flag and the trace shows the
    path resolution and the directory creation only. *)
Lemma print_mode_skips_secret_check_witness :
  let fnc := Sample.withSecrets ["token"; "key"] in
  let opts := Sample.options true "" ∅ in
  let w := Sample.world [] in
  (∀ name, name ∈ Secrets fnc →
           absent w (Sample.filepath_Join Sample.secretsDir name))
  ∧ ∃ cmd w',
      Sample.build fnc opts w = (Ok cmd, w')
      ∧ "--volume=/home/dev/fn/.secrets:/var/openfaas/secrets" ∈ flags cmd
      ∧ trace w'
        = [EvAbs ".secrets"; EvMkdirAll "/home/dev/fn/.secrets" 448].
Proof.
  intros fnc opts w. split.
  - intros name _. split; [apply not_elem_of_empty | apply lookup_empty].
  - destruct (print_mode_skips_secret_check Sample.deriveFprocess
                Sample.readFiles Sample.filepath_Join Sample.strconv_Quote
                fnc opts w "/home/dev/fn")
      as (cmd & w' & Hb & Hvol & Htr & _);
      [discriminate | reflexivity | reflexivity | reflexivity | reflexivity
      | compute_done |].
    exists cmd, w'. split; [exact Hb|]. split; [exact Hvol | exact Htr].
Defined.

(** C7, on a concrete run: a function without secrets leaves the trace and
    the file system untouched and gets no volume flag. *)
Lemma no_secrets_no_directory_access_witness :
  let fnc := Sample.stronghash in
  let opts := Sample.options false "" ∅ in
  Secrets fnc = []
  ∧ ∃ cmd w',
      Sample.build fnc opts (Sample.world []) = (Ok cmd, w')
      ∧ trace w' = [] ∧ dirs w' = ∅ ∧ files w' = ∅
      ∧ Forall (λ s, is_volumeFlag s = false) (flags cmd).
Proof.
  intros fnc opts. split; [reflexivity|].
  destruct (Sample.build fnc opts (Sample.world [])) as [[cmd|e] w'] eqn:Hb;
    [|vm_compute in Hb; discriminate].
  destruct (no_secrets_no_directory_access _ _ _ _ fnc opts _ _ _ eq_refl Hb)
    as (Htr & Hd & Hf & Hvol).
  exists cmd, w'. split; [reflexivity|].
  split; [exact Htr|]. split; [exact Hd|]. split; [exact Hf|].
  by apply Hvol.
Defined.

(** C8, on a concrete run: [Limits] with memory [40Mi] and CPU [0.5]
    gives both flags. *)
Lemma limit_flags_iff_limits_set_witness :
  let opts := Sample.options false "" ∅ in
  ∃ cmd w',
    Sample.build Sample.limited opts (Sample.world []) = (Ok cmd, w')
    ∧ "--memory-reservation=40Mi" ∈ flags cmd
    ∧ "--cpus=0.5" ∈ flags cmd.
Proof.
  intros opts.
  destruct (Sample.build Sample.limited opts (Sample.world []))
    as [[cmd|e] w'] eqn:Hb; [|vm_compute in Hb; discriminate].
  destruct (limit_flags_iff_limits_set Sample.deriveFprocess
              Sample.readFiles Sample.filepath_Join Sample.strconv_Quote
              Sample.limited opts (Sample.world [])) as [Hok _].
  destruct (Hok cmd w' Hb) as (_ & _ & Hmem & Hcpu).
  exists cmd, w'. split; [reflexivity|]. split.
  - apply (Hmem {| Memory := "40Mi"; CPU := "0.5" |}); [reflexivity | discriminate].
  - apply (Hcpu {| Memory := "40Mi"; CPU := "0.5" |}); [reflexivity | discriminate].
Defined.

(** C8, on a concrete run without [Limits]: the build succeeds and carries
    neither flag. *)
Example no_limits_no_flags :
  ∃ cmd w',
    Sample.build Sample.stronghash (Sample.options false "" ∅) (Sample.world [])
    = (Ok cmd, w')
    ∧ Forall (λ s, is_memoryFlag s = false ∧ is_cpuFlag s = false) (flags cmd).
Proof.
  eexists _, _. split; [vm_compute; reflexivity|].
  repeat constructor.
Qed.



(** The run with the value ["false"], and the run with the empty value. *)
Example experimental_flag_false_runs :
  let w := Sample.worldWith {[ "OPENFAAS_EXPERIMENTAL" := "false" ]} ∅ ∅ in
  (Sample.run (Sample.options true "" ∅) ["stronghash"] w).1 = None
  ∧ (is_outputEvent <$> trace (Sample.run (Sample.options true "" ∅)
                                 ["stronghash"] w).2)
    = [false; false; true].
Proof. split; vm_compute; reflexivity. Qed.

Example experimental_flag_empty_runs :
  let w := Sample.worldWith {[ "OPENFAAS_EXPERIMENTAL" := "" ]} ∅ ∅ in
  (Sample.run (Sample.options true "" ∅) ["stronghash"] w).1 = None
  ∧ (is_outputEvent <$> trace (Sample.run (Sample.options true "" ∅)
                                 ["stronghash"] w).2)
    = [false; false; true].
Proof. split; vm_compute; reflexivity. Qed.

(** With [OPENFAAS_EXPERIMENTAL=1] the same command goes on: it parses the
    stack file, updates the ignore list, builds the command and, in print
    mode, writes it to the output. *)
Example experimental_flag_set_runs :
  let opts := Sample.options true "" ∅ in
  let w := Sample.worldWith {[ "OPENFAAS_EXPERIMENTAL" := "1" ]} ∅ ∅ in
  (Sample.run opts ["stronghash"] w).1 = None
  ∧ trace (Sample.run opts ["stronghash"] w).2
    = [EvParseYAMLFile "stack.yml" "stronghash"; EvUpdateGitignore;
       EvWrite "stdout"
         ("/usr/bin/docker run --rm -i -p=8081:8080 -e=A=1 -e=B=2 "
            +:+ "-e=fprocess=./handler stronghash:latest" +:+ LF)].
Proof. split; vm_compute; reflexivity. Qed.

(** In execute mode the notice is printed, then the process is started and
    waited for, with its streams wired to the sinks. *)
Example experimental_flag_set_executes :
  let opts := Sample.options false "" ∅ in
  let w := Sample.worldWith {[ "OPENFAAS_EXPERIMENTAL" := "1" ]} ∅ ∅ in
  let cmd :=
    {| Args := ["docker"; "run"; "--rm"; "-i"; "-p=8081:8080"; "-e=A=1";
                "-e=B=2"; "-e=fprocess=./handler"; "stronghash:latest"];
       Stdout := Some "stdout"; Stderr := Some "stderr" |} in
  (Sample.run opts ["stronghash"] w).1 = None
  ∧ trace (Sample.run opts ["stronghash"] w).2
    = [EvParseYAMLFile "stack.yml" "stronghash"; EvUpdateGitignore;
       EvPrintf ("Starting local-run for: stronghash on: http://0.0.0.0:8081"
                   +:+ LF +:+ LF);
       EvStart cmd; EvWait cmd].
Proof. split; vm_compute; reflexivity. Qed.

(** C10, on a concrete dry run: [print = true] and no secrets directory;
    after the build the directory exists with mode [0700]. *)
Lemma secrets_directory_created_in_print_mode_witness :
  let fnc := Sample.withSecrets ["token"] in
  let opts := Sample.options true "" ∅ in
  let w := Sample.world [] in
  dirs w !! Sample.secretsDir = None
  ∧ ∃ r w',
      Sample.build fnc opts w = (r, w')
      ∧ is_Ok r = true
      ∧ dirs w' !! Sample.secretsDir = Some 448
      ∧ EvMkdirAll Sample.secretsDir 448 ∈ trace w'.
Proof.
  intros fnc opts w. split; [reflexivity|].
  destruct (Sample.build fnc opts w) as [r w'] eqn:Hb.
  destruct (secrets_directory_created_in_print_mode Sample.deriveFprocess
              Sample.readFiles Sample.filepath_Join Sample.strconv_Quote
              fnc opts w "/home/dev/fn" r w')
    as (Hdir & Hev & Hprint & _);
    [discriminate | reflexivity | reflexivity | reflexivity | reflexivity
    | apply not_elem_of_empty | reflexivity | exact Hb |].
  exists r, w'. split; [reflexivity|].
  split; [by apply Hprint|]. split; [exact Hdir | exact Hev].
Defined.

(** ** Concrete runs of the further properties *)

(** A dry run for a function with a secret, then a second one on the
    world it left: the second leaves the file system alone and builds the
    same command. *)
Lemma second_build_repeats_first_witness :
  let fnc := Sample.withSecrets ["token"] in
  let opts := Sample.options true "" {[ "FOO" := "bar" ]} in
  ∃ r1 w1 r2 w2,
    Sample.build fnc opts (Sample.world [1%nat; 1%nat; 1%nat]) = (r1, w1)
    ∧ Sample.build fnc opts w1 = (r2, w2)
    ∧ sameFS w2 w1
    ∧ dirs w1 !! Sample.secretsDir = Some 448
    ∧ match r1, r2 with
      | Ok cmd1, Ok cmd2 => cmd1 = cmd2
      | _, _ => False
      end.
Proof.
  intros fnc opts.
  destruct (Sample.build fnc opts (Sample.world [1%nat; 1%nat; 1%nat]))
    as [r1 w1] eqn:Hb1.
  destruct (Sample.build fnc opts w1) as [r2 w2] eqn:Hb2.
  exists r1, w1, r2, w2. split; [reflexivity|]. split; [exact Hb2|].
  destruct (second_build_repeats_first _ _ _ _ _ _ _ _ _ _ _ Hb1 Hb2)
    as [HFS Hres].
  split; [exact HFS|]. split.
  - vm_compute in Hb1. injection Hb1 as _ <-. reflexivity.
  - destruct r1 as [cmd1|e1]; [|vm_compute in Hb1; discriminate].
    destruct r2 as [cmd2|e2]; [|destruct Hres].
    destruct Hres as (fprocess & moreEnv & vol & env1 & env2 & more1 & more2
      & extra1 & extra2 & _ & Hread & _ & _ & _ & _ & _ & _ & _ & _ & _
      & Hsingle).
    injection Hread as <-.
    apply Hsingle; vm_compute; lia.
Defined.

(** A dry run for a function with a secret on a world without the secrets
    directory: no file appears, the directories that were there stay. *)
Lemma build_adds_only_secrets_directory_witness :
  let fnc := Sample.withSecrets ["token"] in
  let opts := Sample.options true "" ∅ in
  let w := Sample.worldWith ∅ {[ "/home/dev/fn" := 493 ]} ∅ in
  ∃ r w',
    Sample.build fnc opts w = (r, w')
    ∧ files w' = ∅
    ∧ dirs w' !! "/home/dev/fn" = Some 493
    ∧ dirs w' !! Sample.secretsDir = Some 448.
Proof.
  intros fnc opts w.
  destruct (Sample.build fnc opts w) as [r w'] eqn:Hb.
  destruct (build_adds_only_secrets_directory _ _ _ _ _ _ _ _ _ Hb)
    as (Hf & _ & Hsub & Hnew).
  exists r, w'. split; [reflexivity|]. split; [exact Hf|]. split.
  - eapply lookup_weaken; [|exact Hsub]. reflexivity.
  - destruct (Hnew Sample.secretsDir) as (_ & wd & _ & _ & Hmode);
      [reflexivity | | exact Hmode].
    vm_compute in Hb. injection Hb as _ <-. by eexists.
Defined.

(** A function with a secret whose entrypoint cannot be derived: the error
    comes back as it is and the trace stays empty. *)
Lemma early_failure_skips_secrets_witness :
  let fnc :=
    {| Language := "go"; FProcess := ""; Image := "stronghash:latest";
       Environment := ∅; EnvironmentFile := []; Secrets := ["token"];
       Limits := None; ReadOnlyRootFilesystem := false |} in
  ∃ w',
    Sample.build fnc (Sample.options false "" ∅) (Sample.world [])
    = (Err (errorString "template.yml: no such file or directory"), w')
    ∧ trace w' = [] ∧ dirs w' = ∅.
Proof.
  intros fnc.
  destruct (early_failure_skips_secrets Sample.deriveFprocess
              Sample.readFiles Sample.filepath_Join Sample.strconv_Quote
              fnc (Sample.options false "" ∅) (Sample.world [])
              (errorString "template.yml: no such file or directory"))
    as (w' & Hb & Htr & Hd & _); [left; reflexivity|].
  exists w'. split; [exact Hb|]. split; [exact Htr | exact Hd].
Defined.

(** A function with a secret in a world whose working directory is
    unknown. *)
Lemma unresolved_secrets_path_stops_build_witness :
  let w :=
    {| environ := ∅; cwd := None; dirs := ∅; files := ∅; writable := true;
       fastrand := []; trace := [] |} in
  ∃ r w',
    Sample.build (Sample.withSecrets ["token"]) (Sample.options true "" ∅) w
    = (r, w')
    ∧ is_Ok r = false
    ∧ newEvents w w' = [EvAbs ".secrets"].
Proof.
  intros w.
  destruct (unresolved_secrets_path_stops_build Sample.deriveFprocess
              Sample.readFiles Sample.filepath_Join Sample.strconv_Quote
              (Sample.withSecrets ["token"]) (Sample.options true "" ∅) w)
    as (inner & w' & Hb & Hev & _);
    [discriminate | reflexivity | reflexivity | reflexivity |].
  eexists _, w'. split; [exact Hb|]. split; [reflexivity | exact Hev].
Defined.

(** A dry run for a function with a secret in a world where the secrets
    directory is missing and nothing can be created. *)
Lemma uncreatable_secrets_directory_stops_build_witness :
  let w :=
    {| environ := ∅; cwd := Some "/home/dev/fn"; dirs := ∅; files := ∅;
       writable := false; fastrand := []; trace := [] |} in
  ∃ r w',
    Sample.build (Sample.withSecrets ["token"]) (Sample.options true "" ∅) w
    = (r, w')
    ∧ is_Ok r = false
    ∧ newEvents w w' = [EvAbs ".secrets"; EvMkdirAll Sample.secretsDir 448]
    ∧ dirs w' = ∅.
Proof.
  intros w.
  destruct (uncreatable_secrets_directory_stops_build Sample.deriveFprocess
              Sample.readFiles Sample.filepath_Join Sample.strconv_Quote
              (Sample.withSecrets ["token"]) (Sample.options true "" ∅) w
              "/home/dev/fn")
    as (w' & Hb & Hev & Hd & _);
    [discriminate | reflexivity | reflexivity | reflexivity | compute_done |].
  eexists _, w'. split; [exact Hb|]. split; [reflexivity|].
  split; [exact Hev | exact Hd].
Defined.

(** The secret [key] is declared and its file is there: the build
    succeeds after one look-up. *)
Lemma build_succeeds_iff_secrets_present_witness :
  let fnc := Sample.withSecrets ["key"] in
  let opts := Sample.options false "" ∅ in
  let w := Sample.worldWith ∅ {[ Sample.secretsDir := 448 ]}
             {[ "/home/dev/fn/.secrets/key" ]} in
  ∃ r w',
    Sample.build fnc opts w = (r, w')
    ∧ is_Ok r = true
    ∧ newEvents w w'
      = [EvAbs ".secrets"; EvMkdirAll Sample.secretsDir 448;
         EvStat "/home/dev/fn/.secrets/key"].
Proof.
  intros fnc opts w.
  destruct (Sample.build fnc opts w) as [r w'] eqn:Hb.
  destruct (build_succeeds_iff_secrets_present Sample.deriveFprocess
              Sample.readFiles Sample.filepath_Join Sample.strconv_Quote
              fnc opts w "/home/dev/fn" r w')
    as (Hiff & Hev & _);
    [discriminate | reflexivity | reflexivity | reflexivity | reflexivity
    | compute_done | exact Hb |].
  exists r, w'. split; [reflexivity|]. split; [|exact Hev].
  apply Hiff. intros name Hin.
  apply elem_of_cons in Hin as [->|Hin]; [compute_done|].
  by apply not_elem_of_nil in Hin.
Defined.

(** An environment entry whose key looks like a port flag changes neither
    the port-publish flag nor the network flags. *)
Lemma port_and_network_flags_from_options_witness :
  let opts := Sample.options false "host" {[ "-p" := "1:1" ]} in
  ∃ cmd w',
    Sample.build Sample.stronghash opts (Sample.world []) = (Ok cmd, w')
    ∧ filter (λ s, is_portFlag s = true) (flags cmd) = ["-p=8081:8080"]
    ∧ filter (λ s, is_networkFlag s = true) (flags cmd) = ["--network=host"].
Proof.
  intros opts.
  destruct (Sample.build Sample.stronghash opts (Sample.world []))
    as [[cmd|e] w'] eqn:Hb; [|vm_compute in Hb; discriminate].
  exists cmd, w'. split; [reflexivity|].
  exact (port_and_network_flags_from_options _ _ _ _ _ _ _ _ _ Hb).
Defined.

(** A function with a read-only root file system gets the flag. *)
Lemma read_only_flag_iff_witness :
  ∃ cmd w',
    Sample.build (Sample.withSecrets []) (Sample.options false "" ∅)
      (Sample.world []) = (Ok cmd, w')
    ∧ "--read-only" ∈ flags cmd.
Proof.
  destruct (Sample.build (Sample.withSecrets []) (Sample.options false "" ∅)
              (Sample.world [])) as [[cmd|e] w'] eqn:Hb;
    [|vm_compute in Hb; discriminate].
  exists cmd, w'. split; [reflexivity|].
  apply (read_only_flag_iff _ _ _ _ _ _ _ _ _ Hb). reflexivity.
Defined.

(** The command built for [stronghash]. *)
Lemma command_is_docker_run_witness :
  ∃ cmd w',
    Sample.build Sample.stronghash (Sample.options false "" ∅)
      (Sample.world []) = (Ok cmd, w')
    ∧ ∃ rest, Args cmd = ["docker"; "run"; "--rm"; "-i"; "-p=8081:8080"] ++ rest.
Proof.
  destruct (Sample.build Sample.stronghash (Sample.options false "" ∅)
              (Sample.world [])) as [[cmd|e] w'] eqn:Hb;
    [|vm_compute in Hb; discriminate].
  exists cmd, w'. split; [reflexivity|].
  destruct (command_is_docker_run _ _ _ _ _ _ _ _ _ Hb) as (Hargs & _).
  exact Hargs.
Defined.

(** Three names are checked in a directory that holds the second one
    only. *)
Lemma dirContainsFiles_reports_absent_names_witness :
  let w := Sample.worldWith ∅ {[ Sample.secretsDir := 448 ]}
             {[ "/home/dev/fn/.secrets/key" ]} in
  ∃ r w',
    dirContainsFiles Sample.filepath_Join Sample.secretsDir
      ["token"; "key"; "cert"] w = (r, w')
    ∧ r = Some (missingFileError ["token"; "cert"] Sample.secretsDir)
    ∧ newEvents w w'
      = [EvStat "/home/dev/fn/.secrets/token";
         EvStat "/home/dev/fn/.secrets/key";
         EvStat "/home/dev/fn/.secrets/cert"]
    ∧ files w' = files w.
Proof.
  intros w.
  destruct (dirContainsFiles Sample.filepath_Join Sample.secretsDir
              ["token"; "key"; "cert"] w) as [r w'] eqn:Hb.
  destruct (dirContainsFiles_reports_absent_names _ _ _ _ _ _ Hb)
    as (Hev & _ & Hf & _ & _).
  exists r, w'. split; [reflexivity|]. split; [|split; [exact Hev | exact Hf]].
  vm_compute in Hb. by injection Hb as <- _.
Defined.

(** Adding [key] to an error that lists [token]. *)
Lemma AddMissingSecret_appends_name_witness :
  ["token"] ≠ []
  ∧ Error Sample.strconv_Quote
      (AddMissingSecret (missingFileError ["token"] Sample.secretsDir) "key")
    = "create the following secrets (token, key) in: "
        +:+ Sample.strconv_Quote Sample.secretsDir.
Proof.
  assert (Hne : ["token"] ≠ []) by discriminate.
  split; [exact Hne|].
  destruct (AddMissingSecret_appends_name Sample.strconv_Quote ["token"]
              Sample.secretsDir "key") as (_ & Hmsg & _).
  exact (Hmsg Hne).
Defined.

(** Three runs that end before the build: an unknown function name, a
    stack file with two functions, and a failing ignore-list update. *)
Lemma resolution_failures_stop_before_build_witness :
  let opts := Sample.options false "" ∅ in
  let w := Sample.world [] in
  let two : Services :=
    {| Functions := {[ "a" := Sample.stronghash; "b" := Sample.stronghash ]} |} in
  runFunction Sample.deriveFprocess Sample.readFiles Sample.ParseYAMLFile
    "stack.yml" None Sample.filepath_Join Sample.strconv_Quote
    Sample.cmd_Start Sample.cmd_Wait Sample.cmd_String "other" opts w
  = (Some (errorString
       "no functions matching --filter/--regex were found in the YAML file"),
     logs [EvParseYAMLFile "stack.yml" "other"] w)
  ∧ (runFunction Sample.deriveFprocess Sample.readFiles (λ _ _ _ _, Ok two)
       "stack.yml" None Sample.filepath_Join Sample.strconv_Quote
       Sample.cmd_Start Sample.cmd_Wait Sample.cmd_String "a" opts w).2
    = logs [EvParseYAMLFile "stack.yml" "a"] w
  ∧ runFunction Sample.deriveFprocess Sample.readFiles Sample.ParseYAMLFile
      "stack.yml" (Some (errorString "open .gitignore: permission denied"))
      Sample.filepath_Join Sample.strconv_Quote
      Sample.cmd_Start Sample.cmd_Wait Sample.cmd_String "stronghash" opts w
    = (Some (errorString "open .gitignore: permission denied"),
       logs [EvParseYAMLFile "stack.yml" "stronghash"; EvUpdateGitignore] w).
Proof.
  intros opts w two. split; [|split].
  - apply (resolution_failures_stop_before_build Sample.deriveFprocess
             Sample.readFiles Sample.ParseYAMLFile "stack.yml" None
             Sample.filepath_Join Sample.strconv_Quote
             Sample.cmd_Start Sample.cmd_Wait Sample.cmd_String "other" opts w).
    reflexivity.
  - destruct (resolution_failures_stop_before_build Sample.deriveFprocess
                Sample.readFiles (λ _ _ _ _, Ok two) "stack.yml" None
                Sample.filepath_Join Sample.strconv_Quote
                Sample.cmd_Start Sample.cmd_Wait Sample.cmd_String "a" opts w)
      as (_ & Hmany & _).
    rewrite (Hmany two); [reflexivity | reflexivity | compute_done].
  - destruct (resolution_failures_stop_before_build Sample.deriveFprocess
                Sample.readFiles Sample.ParseYAMLFile "stack.yml"
                (Some (errorString "open .gitignore: permission denied"))
                Sample.filepath_Join Sample.strconv_Quote
                Sample.cmd_Start Sample.cmd_Wait Sample.cmd_String "stronghash" opts w)
      as (_ & _ & Hgit).
    apply (Hgit {| Functions := {[ "stronghash" := Sample.stronghash ]} |});
      [reflexivity | compute_done | reflexivity].
Defined.

(** The stack holds a function with a secret whose file is missing: the
    run ends with the builder's error, after the loading and the update,
    and nothing is written or started. *)
Lemma build_failure_starts_nothing_witness :
  let opts := Sample.options false "" ∅ in
  let w := Sample.world [] in
  let services : Services :=
    {| Functions := {[ "fn" := Sample.withSecrets ["token"] ]} |} in
  ∃ e w',
    runFunction Sample.deriveFprocess Sample.readFiles (λ _ _ _ _, Ok services)
      "stack.yml" None Sample.filepath_Join Sample.strconv_Quote
      Sample.cmd_Start Sample.cmd_Wait Sample.cmd_String "fn" opts w
    = (Some e, w')
    ∧ Forall (λ e, is_processEvent e = false ∧ is_outputEvent e = false)
        (newEvents w w').
Proof.
  intros opts w services.
  destruct (buildDockerRun Sample.deriveFprocess Sample.readFiles
              Sample.filepath_Join Sample.strconv_Quote
              (default Function_zero (Functions services !! "fn")) opts
              (logs [EvParseYAMLFile "stack.yml" "fn"; EvUpdateGitignore] w))
    as [[cmd|e] w3] eqn:Hb; [vm_compute in Hb; discriminate|].
  destruct (build_failure_starts_nothing Sample.deriveFprocess
              Sample.readFiles (λ _ _ _ _, Ok services) "stack.yml" None
              Sample.filepath_Join Sample.strconv_Quote
              Sample.cmd_Start Sample.cmd_Wait Sample.cmd_String "fn" opts w services e w3)
    as (Hrun & es & Hev & Hes);
    [reflexivity | compute_done | reflexivity | exact Hb |].
  exists e, w3. split; [exact Hrun|].
  rewrite Hev. apply Forall_app. split; [repeat constructor | exact Hes].
Defined.

(** A dry run of [stronghash]: the line written to the output. *)
Lemma print_mode_writes_command_line_witness :
  let opts := Sample.options true "" ∅ in
  let w := Sample.world [] in
  ∃ w',
    runFunction Sample.deriveFprocess Sample.readFiles Sample.ParseYAMLFile
      "stack.yml" None Sample.filepath_Join Sample.strconv_Quote
      Sample.cmd_Start Sample.cmd_Wait Sample.cmd_String "stronghash" opts w
    = (None, w')
    ∧ last (trace w')
      = Some (EvWrite "stdout"
                ("/usr/bin/docker run --rm -i -p=8081:8080 -e=A=1 -e=B=2 "
                   +:+ "-e=fprocess=./handler stronghash:latest" +:+ LF)).
Proof.
  intros opts w.
  set (services := {| Functions := {[ "stronghash" := Sample.stronghash ]} |}).
  destruct (buildDockerRun Sample.deriveFprocess Sample.readFiles
              Sample.filepath_Join Sample.strconv_Quote
              (default Function_zero (Functions services !! "stronghash")) opts
              (logs [EvParseYAMLFile "stack.yml" "stronghash";
                     EvUpdateGitignore] w))
    as [[cmd|e] w3] eqn:Hb; [|vm_compute in Hb; discriminate].
  destruct (print_mode_writes_command_line Sample.deriveFprocess
              Sample.readFiles Sample.ParseYAMLFile "stack.yml" None
              Sample.filepath_Join Sample.strconv_Quote
              Sample.cmd_Start Sample.cmd_Wait Sample.cmd_String "stronghash" opts w
              services cmd w3)
    as (w' & Hrun & Hev);
    [reflexivity | reflexivity | compute_done | reflexivity | exact Hb |].
  exists w'. split; [exact Hrun|].
  vm_compute in Hrun. injection Hrun as <-. reflexivity.
Defined.

(** A run of [stronghash] in execute mode: the notice, the start, the
    wait. *)
Lemma execute_mode_starts_then_waits_witness :
  let opts := Sample.options false "" ∅ in
  let w := Sample.world [] in
  let cmd :=
    {| Args := ["docker"; "run"; "--rm"; "-i"; "-p=8081:8080"; "-e=A=1";
                "-e=B=2"; "-e=fprocess=./handler"; "stronghash:latest"];
       Stdout := Some "stdout"; Stderr := Some "stderr" |} in
  ∃ w',
    runFunction Sample.deriveFprocess Sample.readFiles Sample.ParseYAMLFile
      "stack.yml" None Sample.filepath_Join Sample.strconv_Quote
      Sample.cmd_Start Sample.cmd_Wait Sample.cmd_String "stronghash" opts w
    = (None, w')
    ∧ trace w'
      = [EvParseYAMLFile "stack.yml" "stronghash"; EvUpdateGitignore;
         EvPrintf ("Starting local-run for: stronghash on: http://0.0.0.0:8081"
                     +:+ LF +:+ LF);
         EvStart cmd; EvWait cmd].
Proof.
  intros opts w cmd.
  set (services := {| Functions := {[ "stronghash" := Sample.stronghash ]} |}).
  destruct (buildDockerRun Sample.deriveFprocess Sample.readFiles
              Sample.filepath_Join Sample.strconv_Quote
              (default Function_zero (Functions services !! "stronghash")) opts
              (logs [EvParseYAMLFile "stack.yml" "stronghash";
                     EvUpdateGitignore] w))
    as [[cmd0|e] w3] eqn:Hb; [|vm_compute in Hb; discriminate].
  destruct (execute_mode_starts_then_waits Sample.deriveFprocess
              Sample.readFiles Sample.ParseYAMLFile "stack.yml" None
              Sample.filepath_Join Sample.strconv_Quote
              Sample.cmd_Start Sample.cmd_Wait Sample.cmd_String "stronghash" opts w
              services cmd0 w3)
    as (w' & Hrun & Hev);
    [reflexivity | reflexivity | compute_done | reflexivity | exact Hb |].
  exists w'. split; [exact Hrun|].
  vm_compute in Hrun. injection Hrun as <-. reflexivity.
Defined.

(** The same run: a process was started, so the command had been built
    and the run was not a dry run. *)
Lemma process_needs_built_command_witness :
  let opts := Sample.options false "" ∅ in
  let w := Sample.world [] in
  ∃ r w' services cmd w3,
    runFunction Sample.deriveFprocess Sample.readFiles Sample.ParseYAMLFile
      "stack.yml" None Sample.filepath_Join Sample.strconv_Quote
      Sample.cmd_Start Sample.cmd_Wait Sample.cmd_String "stronghash" opts w
    = (r, w')
    ∧ Sample.ParseYAMLFile "stack.yml" "" "stronghash" true = Ok services
    ∧ Sample.build (default Function_zero (Functions services !! "stronghash"))
        opts (logs [EvParseYAMLFile "stack.yml" "stronghash";
                    EvUpdateGitignore] w)
      = (Ok cmd, w3)
    ∧ EvStart (wired cmd "stdout" "stderr") ∈ newEvents w w'.
Proof.
  intros opts w.
  destruct (runFunction Sample.deriveFprocess Sample.readFiles
              Sample.ParseYAMLFile "stack.yml" None Sample.filepath_Join
              Sample.strconv_Quote Sample.cmd_Start Sample.cmd_Wait Sample.cmd_String
              "stronghash" opts w) as [r w'] eqn:Hrun.
  destruct (process_needs_built_command _ _ _ _ _ _ _ _ _ _ _ _ _ _ _ Hrun)
    as (_ & services & cmd & w3 & Hp & _ & _ & Hb & Hstart).
  - vm_compute in Hrun. injection Hrun as _ <-.
    exists (EvStart
      {| Args := ["docker"; "run"; "--rm"; "-i"; "-p=8081:8080"; "-e=A=1";
                  "-e=B=2"; "-e=fprocess=./handler"; "stronghash:latest"];
         Stdout := Some "stdout"; Stderr := Some "stderr" |}).
    split; [|reflexivity]. vm_compute. repeat constructor.
  - exists r, w', services, cmd, w3.
    split; [reflexivity|]. split; [exact Hp|]. split; [exact Hb | exact Hstart].
Defined.

(** The loader returns a stack without the function asked for; with an
    entrypoint derived for any function, a command without image is
    printed. *)
Lemma unknown_function_built_from_zero_value_witness :
  let opts := Sample.options true "" ∅ in
  let w := Sample.world [] in
  ∃ cmd w',
    runFunction (λ _, Ok "./handler") Sample.readFiles
      (λ _ _ _ _, Ok {| Functions := ∅ |})
      "stack.yml" None Sample.filepath_Join Sample.strconv_Quote
      Sample.cmd_Start Sample.cmd_Wait Sample.cmd_String "ghost" opts w
    = (None, w')
    ∧ last (Args cmd) = Some ""
    ∧ last (newEvents w w') = Some (EvWrite "stdout" (Sample.cmd_String cmd +:+ LF)).
Proof.
  intros opts w.
  destruct (unknown_function_built_from_zero_value (λ _, Ok "./handler")
              Sample.readFiles (λ _ _ _ _, Ok {| Functions := ∅ |})
              "stack.yml" None Sample.filepath_Join Sample.strconv_Quote
              Sample.cmd_Start Sample.cmd_Wait Sample.cmd_String "ghost" opts w
              {| Functions := ∅ |} "./handler" ∅)
    as (cmd & w' & Hrun & Hev & Himg & _);
    [reflexivity | compute_done | reflexivity | reflexivity | reflexivity
    | reflexivity | reflexivity |].
  exists cmd, w'. split; [exact Hrun|]. split; [exact Himg|].
  rewrite Hev. reflexivity.
Defined.

(** With [OPENFAAS_EXPERIMENTAL=1]: no argument and two arguments are
    refused, one argument is run. *)
Lemma command_needs_one_function_name_witness :
  let opts := Sample.options true "" ∅ in
  let w := Sample.worldWith {[ "OPENFAAS_EXPERIMENTAL" := "1" ]} ∅ ∅ in
  Sample.run opts [] w
  = (Some (errorString "expected the name of the function"), w)
  ∧ Sample.run opts ["a"; "b"] w
    = (Some (errorString "only one function name is allowed"), w)
  ∧ Sample.run opts ["stronghash"] w
    = runFunction Sample.deriveFprocess Sample.readFiles Sample.ParseYAMLFile
        "stack.yml" None Sample.filepath_Join Sample.strconv_Quote
        Sample.cmd_Start Sample.cmd_Wait Sample.cmd_String "stronghash" opts w.
Proof.
  intros opts w.
  destruct (command_needs_one_function_name Sample.deriveFprocess
              Sample.readFiles Sample.ParseYAMLFile "stack.yml" None
              Sample.filepath_Join Sample.strconv_Quote
              Sample.cmd_Start Sample.cmd_Wait Sample.cmd_String opts [] w "1")
    as (_ & Hnone & _); [reflexivity | discriminate |].
  destruct (command_needs_one_function_name Sample.deriveFprocess
              Sample.readFiles Sample.ParseYAMLFile "stack.yml" None
              Sample.filepath_Join Sample.strconv_Quote
              Sample.cmd_Start Sample.cmd_Wait Sample.cmd_String opts ["a"; "b"] w "1")
    as (_ & _ & Hmany); [reflexivity | discriminate |].
  destruct (command_needs_one_function_name Sample.deriveFprocess
              Sample.readFiles Sample.ParseYAMLFile "stack.yml" None
              Sample.filepath_Join Sample.strconv_Quote
              Sample.cmd_Start Sample.cmd_Wait Sample.cmd_String opts ["stronghash"] w "1")
    as (Hone & _ & _); [reflexivity | discriminate |].
  split; [by apply Hnone|]. split; [apply Hmany; simpl; lia|].
  exact (Hone "stronghash" eq_refl).
Defined.
